(** * The spiking-MNIST example notebook of NengoDL

    Source: [docs/examples/spiking-mnist.ipynb].

    The notebook is a script over external frameworks (TensorFlow/Keras,
    Nengo, NumPy, Matplotlib).  Two kinds of statements are made about it:

    - statements about what the script is and does (which calls it makes, in
      which order, under which branch, what happens when a call raises).  For
      these the code cells are transcribed as Python syntax ([Py.expr],
      [Py.stmt]) and run by an interpreter ([Run.exec]) that records every
      call the script attempts; the outside world decides which calls raise.
    - statements about the array code the notebook itself contains (the
      time-axis preparation and [classification_accuracy]).  These are
      translated to functions on nested lists ([Data]). *)

From Stdlib Require Import String Ascii List ZArith Bool Lia.
From stdpp Require Import base option list gmap strings.
Import ListNotations.
Local Open Scope string_scope.
Local Open Scope list_scope.

(* ===================================================================== *)
(** ** Python syntax, as far as the notebook uses it *)
(* ===================================================================== *)

Module Py.

Inductive binop := Add | Mult.

#[local] Unset Elimination Schemes.

Inductive expr : Type :=
| EName (x : string)
| EInt (n : Z)
| EFloat (literal : string)
| EStr (s : string)
| EBool (b : bool)
| ENone
| EAttr (e : expr) (attr : string)                       (* e.attr *)
| ECall (f : expr) (args : list expr) (kwargs : list (string * expr))
| ETuple (es : list expr)
| EList (es : list expr)
| EDict (items : list (expr * expr))
| ESubscript (e : expr) (idx : expr)                     (* e[idx] *)
| ESlice (lo hi : expr)                  (* lo:hi, ENone for an omitted bound *)
| EBinOp (op : binop) (l r : expr)
| EListComp (elt : expr) (x : string) (iter : expr).     (* [elt for x in iter] *)

Inductive stmt : Type :=
| SMagic (magic line : string)                           (* %magic line *)
| SImport (module : list string) (asname : option string)
| SFromImport (module : list string) (name : string)
| SAssign (target value : expr)
| SExpr (e : expr)
| SFor (x : string) (iter : expr) (body : list stmt)
| SIf (cond : expr) (then_ else_ : list stmt)
| SWith (ctx : expr) (asname : string) (body : list stmt)
| SDef (name : string) (params : list string) (body : list stmt)
| SReturn (e : expr)
| STry (body handler : list stmt).                       (* try: .. except: .. *)

#[local] Set Elimination Schemes.

Inductive cell := Markdown | Code (src : list stmt).

(** [path ["tf"; "keras"; "layers"] ] is the expression [tf.keras.layers]. *)
Definition path (p : list string) : expr :=
  match p with
  | [] => ENone
  | x :: attrs => fold_left EAttr attrs (EName x)
  end.

(** The inverse: the dotted name an expression spells, if it is one. *)
Fixpoint dotted (e : expr) : option (list string) :=
  match e with
  | EName x => Some [x]
  | EAttr e' a => match dotted e' with Some p => Some (p ++ [a]) | None => None end
  | _ => None
  end.

Definition strings_eqb (p q : list string) : bool :=
  bool_decide (p = q).

(** [calls p e]: [e] is a call whose callee is spelled [p]. *)
Definition calls (p : list string) (e : expr) : bool :=
  match e with
  | ECall f _ _ =>
      match dotted f with Some q => strings_eqb p q | None => false end
  | _ => false
  end.

Definition call_args (e : expr) : list expr :=
  match e with ECall _ args _ => args | _ => [] end.

Definition call_kwargs (e : expr) : list (string * expr) :=
  match e with ECall _ _ kw => kw | _ => [] end.

Fixpoint kwarg {A} (k : string) (kw : list (string * A)) : option A :=
  match kw with
  | [] => None
  | (k', v) :: kw' => if String.eqb k k' then Some v else kwarg k kw'
  end.

End Py.
Import Py.

(* ===================================================================== *)
(** ** The notebook *)
(* ===================================================================== *)

Module Notebook.

Definition name : string -> expr := EName.
Definition slice_all : expr := ESlice ENone ENone.               (* [:] *)

(** The address the pretrained weights are fetched from (two adjacent
    string literals in the source). *)
Definition weights_url : string :=
  String.append "https://drive.google.com/uc?export=download&"
                "id=1l5aivQljFoXzPP5JVccdFXbOYRv3BCJR".

Definition cell_imports : list stmt :=
  [ SMagic "matplotlib" "inline";
    SFromImport ["urllib"; "request"] "urlretrieve";
    SImport ["nengo"] None;
    SImport ["tensorflow"] (Some "tf");
    SImport ["numpy"] (Some "np");
    SImport ["matplotlib"; "pyplot"] (Some "plt");
    SImport ["nengo_dl"] None ].

Definition flatten_of (x : string) : stmt :=
  (* x = x.reshape((x.shape[0], -1)) *)
  SAssign (name x)
    (ECall (path [x; "reshape"])
       [ETuple [ESubscript (path [x; "shape"]) (EInt 0); EInt (-1)]] []).

Definition cell_load : list stmt :=
  [ SAssign
      (ETuple [ETuple [name "train_images"; name "train_labels"];
               ETuple [name "test_images"; name "test_labels"]])
      (ECall (path ["tf"; "keras"; "datasets"; "mnist"; "load_data"]) [] []);
    (* flatten images *)
    flatten_of "train_images";
    flatten_of "test_images";
    SExpr (ECall (path ["plt"; "figure"]) []
             [("figsize", ETuple [EInt 12; EInt 4])]);
    SFor "i" (ECall (name "range") [EInt 3] [])
      [ SExpr (ECall (path ["plt"; "subplot"])
                 [EInt 1; EInt 3; EBinOp Add (name "i") (EInt 1)] []);
        SExpr (ECall (path ["plt"; "imshow"])
                 [ECall (path ["np"; "reshape"])
                    [ESubscript (name "train_images") (name "i");
                     ETuple [EInt 28; EInt 28]] []]
                 [("cmap", EStr "gray")]);
        SExpr (ECall (path ["plt"; "axis"]) [EStr "off"] []);
        SExpr (ECall (path ["plt"; "title"])
                 [ECall (name "str")
                    [ESubscript (name "train_labels") (name "i")] []] []) ] ].

(** [x = nengo_dl.Layer(f)(input, shape_in=shape)] *)
Definition layer (target : string) (f input : expr)
    (kwargs : list (string * expr)) : stmt :=
  SAssign (name target)
    (ECall (ECall (path ["nengo_dl"; "Layer"]) [f] []) [input] kwargs).

Definition conv2d (kwargs : list (string * expr)) : expr :=
  ECall (path ["tf"; "keras"; "layers"; "Conv2D"]) [] kwargs.

Definition config_of (what : string) : expr :=
  (* net.config[nengo.<what>] *)
  ESubscript (path ["net"; "config"]) (path ["nengo"; what]).

Definition cell_network : list stmt :=
  [ SWith (ECall (path ["nengo"; "Network"]) [] [("seed", EInt 0)]) "net"
      [ (* default parameters for the neurons *)
        SAssign (EAttr (config_of "Ensemble") "max_rates")
          (ECall (path ["nengo"; "dists"; "Choice"]) [EList [EInt 100]] []);
        SAssign (EAttr (config_of "Ensemble") "intercepts")
          (ECall (path ["nengo"; "dists"; "Choice"]) [EList [EInt 0]] []);
        SAssign (EAttr (config_of "Connection") "synapse") ENone;
        SAssign (name "neuron_type")
          (ECall (path ["nengo"; "LIF"]) [] [("amplitude", EFloat "0.01")]);
        SExpr (ECall (path ["nengo_dl"; "configure_settings"]) []
                 [("stateful", EBool false)]);
        (* the input node *)
        SAssign (name "inp")
          (ECall (path ["nengo"; "Node"])
             [ECall (path ["np"; "zeros"])
                [EBinOp Mult (EInt 28) (EInt 28)] []] []);
        (* first convolutional layer *)
        layer "x" (conv2d [("filters", EInt 32); ("kernel_size", EInt 3)])
          (name "inp") [("shape_in", ETuple [EInt 28; EInt 28; EInt 1])];
        layer "x" (name "neuron_type") (name "x") [];
        (* second convolutional layer *)
        layer "x"
          (conv2d [("filters", EInt 64); ("strides", EInt 2);
                   ("kernel_size", EInt 3)])
          (name "x") [("shape_in", ETuple [EInt 26; EInt 26; EInt 32])];
        layer "x" (name "neuron_type") (name "x") [];
        (* third convolutional layer *)
        layer "x"
          (conv2d [("filters", EInt 128); ("strides", EInt 2);
                   ("kernel_size", EInt 3)])
          (name "x") [("shape_in", ETuple [EInt 12; EInt 12; EInt 64])];
        layer "x" (name "neuron_type") (name "x") [];
        (* linear readout *)
        layer "out"
          (ECall (path ["tf"; "keras"; "layers"; "Dense"]) []
             [("units", EInt 10)])
          (name "x") [];
        (* two output probes, one without and one with a filter *)
        SAssign (name "out_p")
          (ECall (path ["nengo"; "Probe"]) [name "out"]
             [("label", EStr "out_p")]);
        SAssign (name "out_p_filt")
          (ECall (path ["nengo"; "Probe"]) [name "out"]
             [("synapse", EFloat "0.1"); ("label", EStr "out_p_filt")]) ] ].

Definition cell_simulator : list stmt :=
  [ SAssign (name "minibatch_size") (EInt 200);
    SAssign (name "sim")
      (ECall (path ["nengo_dl"; "Simulator"]) [name "net"]
         [("minibatch_size", name "minibatch_size")]) ].

Definition cell_time_axis : list stmt :=
  [ (* add single timestep to training data *)
    SAssign (name "train_images")
      (ESubscript (name "train_images") (ETuple [slice_all; ENone; slice_all]));
    SAssign (name "train_labels")
      (ESubscript (name "train_labels") (ETuple [slice_all; ENone; ENone]));
    (* repeat the test data for a number of timesteps *)
    SAssign (name "n_steps") (EInt 30);
    SAssign (name "test_images")
      (ECall (path ["np"; "tile"])
         [ESubscript (name "test_images") (ETuple [slice_all; ENone; slice_all]);
          ETuple [EInt 1; name "n_steps"; EInt 1]] []);
    SAssign (name "test_labels")
      (ECall (path ["np"; "tile"])
         [ESubscript (name "test_labels") (ETuple [slice_all; ENone; ENone]);
          ETuple [EInt 1; name "n_steps"; EInt 1]] []) ].

(** [y[:, -1]] *)
Definition last_step (y : string) : expr :=
  ESubscript (name y) (ETuple [slice_all; EInt (-1)]).

Definition def_classification_accuracy : stmt :=
  SDef "classification_accuracy" ["y_true"; "y_pred"]
    [ SReturn
        (ECall (path ["tf"; "metrics"; "sparse_categorical_accuracy"])
           [last_step "y_true"; last_step "y_pred"] []) ].

(** [sim.compile(loss={out_p_filt: classification_accuracy})]
    [print(title, sim.evaluate(test_images, {out_p_filt: test_labels},
                               verbose=0)["loss"])] *)
Definition report_accuracy (title : string) : list stmt :=
  [ SExpr (ECall (path ["sim"; "compile"]) []
             [("loss", EDict [(name "out_p_filt",
                               name "classification_accuracy")])]);
    SExpr (ECall (name "print")
             [EStr title;
              ESubscript
                (ECall (path ["sim"; "evaluate"])
                   [name "test_images";
                    EDict [(name "out_p_filt", name "test_labels")]]
                   [("verbose", EInt 0)])
                (EStr "loss")] []) ].

Definition cell_accuracy_before : list stmt :=
  def_classification_accuracy :: report_accuracy "Accuracy before training:".

Definition cell_train (do_training : bool) : list stmt :=
  [ SAssign (name "do_training") (EBool do_training);
    SIf (name "do_training")
      [ (* run training *)
        SExpr (ECall (path ["sim"; "compile"]) []
                 [("optimizer",
                   ECall (path ["tf"; "optimizers"; "RMSprop"])
                     [EFloat "0.001"] []);
                  ("loss",
                   EDict [(name "out_p",
                           ECall (path ["tf"; "losses";
                                        "SparseCategoricalCrossentropy"])
                             [] [("from_logits", EBool true)])])]);
        SExpr (ECall (path ["sim"; "fit"])
                 [name "train_images";
                  EDict [(name "out_p", name "train_labels")]]
                 [("epochs", EInt 10)]);
        (* save the parameters to file *)
        SExpr (ECall (path ["sim"; "save_params"]) [EStr "./mnist_params"] []) ]
      [ (* download pretrained weights *)
        SExpr (ECall (name "urlretrieve")
                 [EStr weights_url; EStr "mnist_params.npz"] []);
        (* load parameters *)
        SExpr (ECall (path ["sim"; "load_params"]) [EStr "./mnist_params"] []) ] ].

Definition cell_accuracy_after : list stmt :=
  report_accuracy "Accuracy after training:".

Definition cell_plot : list stmt :=
  [ SAssign (name "data")
      (ECall (path ["sim"; "predict"])
         [ESubscript (name "test_images")
            (ESlice ENone (name "minibatch_size"))] []);
    SFor "i" (ECall (name "range") [EInt 5] [])
      [ SExpr (ECall (path ["plt"; "figure"]) []
                 [("figsize", ETuple [EInt 8; EInt 4])]);
        SExpr (ECall (path ["plt"; "subplot"]) [EInt 1; EInt 2; EInt 1] []);
        SExpr (ECall (path ["plt"; "imshow"])
                 [ECall
                    (EAttr (ESubscript (name "test_images")
                              (ETuple [name "i"; EInt 0])) "reshape")
                    [ETuple [EInt 28; EInt 28]] []]
                 [("cmap", EStr "gray")]);
        SExpr (ECall (path ["plt"; "axis"]) [EStr "off"] []);
        SExpr (ECall (path ["plt"; "subplot"]) [EInt 1; EInt 2; EInt 2] []);
        SExpr (ECall (path ["plt"; "plot"])
                 [ECall (path ["tf"; "nn"; "softmax"])
                    [ESubscript
                       (ESubscript (name "data") (name "out_p_filt"))
                       (name "i")] []] []);
        SExpr (ECall (path ["plt"; "legend"])
                 [EListComp (ECall (name "str") [name "i"] []) "i"
                    (ECall (name "range") [EInt 10] [])]
                 [("loc", EStr "upper left")]);
        SExpr (ECall (path ["plt"; "xlabel"]) [EStr "timesteps"] []);
        SExpr (ECall (path ["plt"; "ylabel"]) [EStr "probability"] []);
        SExpr (ECall (path ["plt"; "tight_layout"]) [] []) ] ].

Definition cell_close : list stmt :=
  [ SExpr (ECall (path ["sim"; "close"]) [] []) ].

(** The cells in order.  The source sets [do_training = False]; its text
    invites the reader to set it to [True], so the flag is a parameter. *)
Definition notebook_with (do_training : bool) : list cell :=
  [ Markdown; Code cell_imports;
    Markdown; Code cell_load;
    Markdown; Code cell_network;
    Markdown; Code cell_simulator;
    Markdown; Code cell_time_axis;
    Markdown; Code cell_accuracy_before;
    Markdown; Code (cell_train do_training);
    Markdown; Code cell_accuracy_after;
    Markdown; Code cell_plot;
    Code cell_close ].

Definition notebook : list cell := notebook_with false.

(** Running all cells is running their statements one after the other. *)
Definition script (nb : list cell) : list stmt :=
  concat (map (fun c => match c with Markdown => [] | Code src => src end) nb).

End Notebook.

(* ===================================================================== *)
(** ** Running the script: every attempted operation is recorded *)
(* ===================================================================== *)

Module Run.

(** What the interpreter knows of a value.  Modules, builtins, and the
    objects and arrays of the external frameworks are opaque. *)
#[local] Unset Elimination Schemes.
Inductive value : Type :=
| VInt (n : Z)
| VBool (b : bool)
| VStr (s : string)
| VNone
| VTuple (vs : list value)
| VRange (n : Z)                                         (* range(n) *)
| VFunction (name : string)                              (* bound by a def *)
| VOpaque.
#[local] Set Elimination Schemes.

(** An attempted operation, one that the outside world may make raise: the
    expression as written and the values of its operands.  For a call these
    are the call expression and its evaluated arguments.  The other
    operations are: the load of an attribute [e.a] (operand: the object),
    the load of a subscript [e[i]] (object, index), the store to an
    attribute or a subscript (the same, and the value stored), an
    arithmetic operation on values the model does not know, a dictionary
    display (its keys are hashed), the unpacking of an opaque value into a
    tuple target (the target; the value), and the import statements and
    line magics, which Python and IPython run as calls ([import_call],
    [magic_call]). *)
Record event := Event {
  ev_call : expr;
  ev_args : list value;
  ev_kwargs : list (string * value)
}.

Definition exn := string.

(** The outside world: given the operations attempted so far (most recent
    first) and the one being attempted, the exception it raises, if it
    raises. *)
Definition World := list event -> event -> option exn.

(** The world in which every operation succeeds. *)
Definition quiet : World := fun _ _ => None.

Record state := State {
  env : gmap string value;
  trace : list event                                     (* most recent first *)
}.

Inductive result (A : Type) : Type :=
| Ok (a : A)
| Raised (e : exn)          (* an exception is propagating *)
| Fault.                    (* the script leaves the modelled fragment:
                               a condition or an iterable that is opaque,
                               a call of a function the script defines,
                               a return outside a function, ... *)
Arguments Ok {A} a.
Arguments Raised {A} e.
Arguments Fault {A}.

Definition M (A : Type) : Type := state -> result A * state.

Definition ret {A} (a : A) : M A := fun s => (Ok a, s).

Definition bind {A B} (m : M A) (f : A -> M B) : M B :=
  fun s =>
    match m s with
    | (Ok a, s') => f a s'
    | (Raised e, s') => (Raised e, s')
    | (Fault, s') => (Fault, s')
    end.

Definition fault {A} : M A := fun s => (Fault, s).

Definition raise {A} (e : exn) : M A := fun s => (Raised e, s).

Notation "'let*' x ':=' m 'in' k" := (bind m (fun x => k))
  (at level 10, x name, m at level 100, k at level 200).

(** A name that is not bound is a NameError. *)
Definition lookup_name (x : string) : M value :=
  fun s =>
    match env s !! x with
    | Some v => (Ok v, s)
    | None => (Raised "NameError", s)
    end.

Definition set_name (x : string) (v : value) : M unit :=
  fun s => (Ok tt, State (<[x := v]> (env s)) (trace s)).

(** try/except: the handler runs when the body raises. *)
Definition catch (body handler : M unit) : M unit :=
  fun s =>
    match body s with
    | (Raised _, s') => handler s'
    | other => other
    end.

(** Run [m] and restore the variables afterwards. *)
Definition in_scope {A} (m : M A) : M A :=
  fun s => let '(r, s') := m s in (r, State (env s) (trace s')).

Definition mapM {A B} (f : A -> M B) : list A -> M (list B) :=
  fix go l :=
    match l with
    | [] => ret []
    | a :: l' => let* b := f a in let* bs := go l' in ret (b :: bs)
    end.

Definition seqM {A} (f : A -> M unit) : list A -> M unit :=
  fix go l :=
    match l with
    | [] => ret tt
    | a :: l' => let* _ := f a in go l'
    end.

(** [body i; body (i+1); ...], [n] times. *)
Fixpoint for_each (body : Z -> M unit) (i : Z) (n : nat) : M unit :=
  match n with
  | O => ret tt
  | S n' => let* _ := body i in for_each body (i + 1) n'
  end.

(** Arithmetic on integers; on other values the outcome is the world's. *)
Definition binop_value (op : binop) (a b : value) : option value :=
  match op, a, b with
  | Add, VInt x, VInt y => Some (VInt (x + y))
  | Mult, VInt x, VInt y => Some (VInt (x * y))
  | _, _, _ => None
  end.

Fixpoint join_dots (p : list string) : string :=
  match p with
  | [] => ""
  | [x] => x
  | x :: p' => String.append x (String.append "." (join_dots p'))
  end.

(** [import a.b] runs [__import__("a.b")]; [from a.b import c] runs
    [__import__("a.b", fromlist=("c",))]. *)
Definition import_call (module : list string) (from : option string) : expr :=
  ECall (EName "__import__") [EStr (join_dots module)]
    match from with
    | Some x => [("fromlist", ETuple [EStr x])]
    | None => []
    end.

(** IPython runs [%magic line] as
    [get_ipython().run_line_magic("magic", "line")]. *)
Definition magic_call (magic line : string) : expr :=
  ECall (EAttr (ECall (EName "get_ipython") [] []) "run_line_magic")
    [EStr magic; EStr line] [].

(** What a call returns when it returns: [range(n)] is known, the rest is
    opaque. *)
Definition call_result (f : expr) (args : list value) : value :=
  match dotted f, args with
  | Some ["range"], [VInt n] => VRange n
  | _, _ => VOpaque
  end.

(** Python truth value, where the model knows it. *)
Definition truth (v : value) : option bool :=
  match v with
  | VBool b => Some b
  | VInt n => Some (negb (n =? 0)%Z)
  | VNone => Some false
  | VStr s => Some (negb (String.eqb s ""%string))
  | VTuple vs => Some (match vs with [] => false | _ => true end)
  | VRange n => Some (0 <? n)%Z
  | VFunction _ => Some true
  | VOpaque => None
  end.

Section Interp.

Variable w : World.

(** Attempt an operation: it is recorded, then it succeeds with [v] or
    raises, as the world decides. *)
Definition attempt (ev : event) (v : value) : M value :=
  fun s =>
    let s' := State (env s) (ev :: trace s) in
    match w (trace s) ev with
    | Some e => (Raised e, s')
    | None => (Ok v, s')
    end.

(** Expressions, in Python's evaluation order: callee, positional
    arguments, keyword arguments, then the call itself.  A call of a
    function that the script itself defines is outside the fragment: the
    notebook defines one function, [classification_accuracy], and only
    hands it to the framework, which calls it back inside [sim.evaluate];
    what happens there is part of that call. *)
Fixpoint eval (e : expr) : M value :=
  match e with
  | EName x => lookup_name x
  | EInt n => ret (VInt n)
  | EFloat _ => ret VOpaque
  | EStr s => ret (VStr s)
  | EBool b => ret (VBool b)
  | ENone => ret VNone
  | EAttr e' _ => let* v := eval e' in attempt (Event e [v] []) VOpaque
  | ECall f args kwargs =>
      let* vf := eval f in
      let* vs := mapM eval args in
      let* kvs := mapM (fun kv => let* v := eval (snd kv) in ret (fst kv, v))
                    kwargs in
      match vf with
      | VFunction _ => fault
      | _ => attempt (Event e vs kvs) (call_result f vs)
      end
  | ETuple es => let* vs := mapM eval es in ret (VTuple vs)
  | EList es => let* _ := mapM eval es in ret VOpaque
  | EDict items =>
      let* kvs := mapM (fun kv => let* k := eval (fst kv) in
                                   let* v := eval (snd kv) in ret (k, v))
                    items in
      match kvs with
      | [] => ret VOpaque
      | _ => attempt (Event e (map fst kvs) []) VOpaque
      end
  | ESubscript e' i =>
      let* v := eval e' in
      let* vi := eval i in
      attempt (Event e [v; vi] []) VOpaque
  | ESlice lo hi => let* _ := eval lo in let* _ := eval hi in ret VOpaque
  | EBinOp op l r =>
      let* a := eval l in
      let* b := eval r in
      match binop_value op a b with
      | Some v => ret v
      | None => attempt (Event e [a; b] []) VOpaque
      end
  | EListComp elt x iter =>
      let* it := eval iter in
      match it with
      | VRange n =>
          (* the comprehension has a scope of its own: [x] does not leak *)
          let* _ := in_scope
                      (for_each (fun i => let* _ := set_name x (VInt i) in
                                          let* _ := eval elt in ret tt)
                         0 (Z.to_nat n)) in
          ret VOpaque
      | VInt _ | VBool _ | VNone | VFunction _ => raise "TypeError"
      | _ => fault
      end
  end.

(** Assignment to a target.  Unpacking a tuple of the wrong length is a
    ValueError, unpacking a value that is not iterable a TypeError; whether
    an opaque value unpacks is the world's. *)
Fixpoint assign (t : expr) (v : value) : M unit :=
  match t with
  | EName x => set_name x v
  | ETuple ts =>
      match v with
      | VTuple vs =>
          (fix go (ts : list expr) (vs : list value) : M unit :=
             match ts, vs with
             | [], [] => ret tt
             | t' :: ts', v' :: vs' => let* _ := assign t' v' in go ts' vs'
             | _, _ => raise "ValueError"
             end) ts vs
      | VOpaque =>
          let* _ := attempt (Event t [v] []) VOpaque in
          seqM (fun t' => assign t' VOpaque) ts
      | VInt _ | VBool _ | VNone | VFunction _ => raise "TypeError"
      | _ => fault
      end
  | EAttr e _ =>
      let* o := eval e in
      let* _ := attempt (Event t [o; v] []) VNone in
      ret tt
  | ESubscript e i =>
      let* o := eval e in
      let* vi := eval i in
      let* _ := attempt (Event t [o; vi; v] []) VNone in
      ret tt
  | _ => fault
  end.

(** The name an import statement binds. *)
Definition import_binds (module : list string) (asname : option string)
    : string :=
  match asname, module with
  | Some x, _ => x
  | None, x :: _ => x
  | None, [] => ""
  end.

(** Statements.  Entering and leaving a [with] block runs the context
    manager's own code, which is the framework's and is not recorded as an
    operation of the script; the only context manager of the notebook is
    [nengo.Network], whose exit returns [None], so that an exception of
    the body is not swallowed.  A [def] binds its name and runs
    nothing. *)
Fixpoint exec (st : stmt) : M unit :=
  match st with
  | SMagic magic line =>
      let* _ := attempt (Event (magic_call magic line)
                           [VStr magic; VStr line] []) VNone in
      ret tt
  | SImport module asname =>
      let* m := attempt (Event (import_call module None)
                           [VStr (join_dots module)] []) VOpaque in
      set_name (import_binds module asname) m
  | SFromImport module x =>
      let* _ := attempt (Event (import_call module (Some x))
                           [VStr (join_dots module)]
                           [("fromlist", VTuple [VStr x])]) VOpaque in
      set_name x VOpaque
  | SAssign t e => let* v := eval e in assign t v
  | SExpr e => let* _ := eval e in ret tt
  | SFor x iter body =>
      let* it := eval iter in
      match it with
      | VRange n =>
          for_each (fun i => let* _ := set_name x (VInt i) in seqM exec body)
            0 (Z.to_nat n)
      | VInt _ | VBool _ | VNone | VFunction _ => raise "TypeError"
      | _ => fault
      end
  | SIf c t e =>
      let* v := eval c in
      match truth v with
      | Some true => seqM exec t
      | Some false => seqM exec e
      | None => fault
      end
  | SWith ctx x body =>
      let* v := eval ctx in
      let* _ := set_name x v in
      seqM exec body
  | SDef f _ _ => set_name f (VFunction f)
  | SReturn _ => fault
  | STry body handler => catch (seqM exec body) (seqM exec handler)
  end.

Definition exec_block : list stmt -> M unit := seqM exec.

End Interp.

(** Does a statement contain a try/except, at any depth? *)
Fixpoint has_try (st : stmt) : bool :=
  match st with
  | STry _ _ => true
  | SFor _ _ body | SWith _ _ body | SDef _ _ body => existsb has_try body
  | SIf _ t e => existsb has_try t || existsb has_try e
  | _ => false
  end.

(** *** A run in a world against the run in which nothing raises *)

Section Outcomes.

Variable w : World.

(** Every operation of the history succeeded. *)
Fixpoint calm (h : list event) : Prop :=
  match h with
  | [] => True
  | ev :: h' => w h' ev = None /\ calm h'
  end.

Definition not_raised {A} (r : result A) : Prop :=
  match r with Raised _ => False | _ => True end.

(** The outcome [out] of a computation in the world [w], against the
    outcome [outq] of the same computation in the quiet world: either the
    world made nothing raise and they are the same, or the last operation
    attempted raised, the exception is the result, and the quiet run went
    on from there. *)
Inductive follows {A} (out outq : result A * state) : Prop :=
| Same :
    out = outq -> calm (trace (snd out)) ->
    follows out outq
| Cut e ev h more :
    fst out = Raised e -> trace (snd out) = ev :: h ->
    w h ev = Some e -> calm h ->
    trace (snd outq) = more ++ ev :: h ->
    follows out outq.

Definition grows {A} (m : M A) : Prop :=
  forall s, exists more, trace (snd (m s)) = more ++ trace s.

Definition tracks {A} (m mq : M A) : Prop :=
  (forall s, calm (trace s) -> follows (m s) (mq s)) /\ grows mq.

End Outcomes.

(** The names bound before the first cell runs: builtins of Python, and
    [get_ipython] of IPython. *)
Definition builtins : list string :=
  ["print"; "range"; "str"; "repr"; "len"; "int"; "float"; "bool"; "list";
   "dict"; "tuple"; "set"; "abs"; "min"; "max"; "sum"; "zip"; "enumerate";
   "sorted"; "isinstance"; "type"; "open"; "input"; "__import__";
   "get_ipython"].

Definition initial : state :=
  State (list_to_map (map (fun x => (x, VOpaque)) builtins)) [].

(** Run all cells of a notebook in a world. *)
Definition run (w : World) (nb : list cell) : result unit * state :=
  exec_block w (Notebook.script nb) initial.

(** The operations attempted, calls among them, oldest first. *)
Definition calls_of (r : result unit * state) : list event := rev (trace (snd r)).

End Run.

(* ===================================================================== *)
(** ** The array code of the notebook *)
(* ===================================================================== *)

Module Data.

(** Arrays are nested lists, outermost axis first. *)

(** [l] repeated [r] times along its own axis. *)
Definition repeat_along {B} (r : nat) (l : list B) : list B :=
  concat (replicate r l).

Section Arrays.

Context {A : Type}.

(** What [x.reshape((x.shape[0], -1))] gives on a stack of images that has
    at least one image: the rows of each image are laid end to end.  On an
    empty stack NumPy refuses the reshape; [flatten_checked] has that. *)
Definition flatten (x : list (list (list A))) : list (list A) :=
  map (@concat A) x.

(** [x.reshape((x.shape[0], -1))]: [None] stands for the ValueError raised
    on a stack without images, where [-1] cannot be resolved. *)
Definition flatten_checked (x : list (list (list A)))
    : option (list (list A)) :=
  match x with
  | [] => None
  | _ => Some (flatten x)
  end.

(** [x[:, None, :]]: shape (N, D) becomes (N, 1, D). *)
Definition add_time_axis (x : list (list A)) : list (list (list A)) :=
  map (fun row => [row]) x.

(** [y[:, None, None]]: shape (N,) becomes (N, 1, 1). *)
Definition add_time_and_unit_axis (y : list A) : list (list (list A)) :=
  map (fun a => [[a]]) y.

(** [np.tile(a, (r0, r1, r2))] on a three-dimensional array. *)
Definition tile (a : list (list (list A))) (reps : nat * nat * nat)
    : list (list (list A)) :=
  let '(r0, r1, r2) := reps in
  repeat_along r0
    (map (fun plane => repeat_along r1 (map (repeat_along r2) plane)) a).

(** Python indexing along one axis: negative indices count from the end,
    an index out of range is an error. *)
Definition index (l : list A) (i : Z) : option A :=
  let n := Z.of_nat (length l) in
  if (0 <=? i)%Z then l !! Z.to_nat i
  else if (0 <=? n + i)%Z then l !! Z.to_nat (n + i)
  else None.

End Arrays.

(** [y[:, i]]: the [i]-th slice along the second axis, for every row.  A
    nested list does not record the length of the second axis of an empty
    batch, so for [y = []] the slice is taken to exist: that is NumPy's
    answer when [i] lies within the axis, not when it lies outside (an
    empty axis in particular).  Statements that depend on it assume a
    batch that is not empty. *)
Fixpoint column {A} (y : list (list A)) (i : Z) : option (list A) :=
  match y with
  | [] => Some []
  | row :: y' =>
      match index row i, column y' i with
      | Some a, Some c => Some (a :: c)
      | _, _ => None
      end
  end.

(** [a[i, s]] *)
Definition at2 {A} (a : list (list A)) (i s : nat) : option A :=
  match a !! i with
  | Some row => row !! s
  | None => None
  end.

Definition n_steps : nat := 30.

(** What [tf.keras.datasets.mnist.load_data()] returns. *)
Record dataset (pixel label : Type) := Dataset {
  train_images : list (list (list pixel));
  train_labels : list label;
  test_images : list (list (list pixel));
  test_labels : list label
}.
Arguments Dataset {pixel label}.
Arguments train_images {pixel label}.
Arguments train_labels {pixel label}.
Arguments test_images {pixel label}.
Arguments test_labels {pixel label}.

(** The data as fed to the simulator: images are (N, time, 784), labels
    (N, time, 1). *)
Record prepared (pixel label : Type) := Prepared {
  p_train_images : list (list (list pixel));
  p_train_labels : list (list (list label));
  p_test_images : list (list (list pixel));
  p_test_labels : list (list (list label))
}.
Arguments Prepared {pixel label}.
Arguments p_train_images {pixel label}.
Arguments p_train_labels {pixel label}.
Arguments p_test_images {pixel label}.
Arguments p_test_labels {pixel label}.

(** The "flatten images" step followed by the time-axis step, for stacks
    that are not empty (see [prepare_checked]). *)
Definition prepare {pixel label} (d : dataset pixel label)
    : prepared pixel label :=
  let train_images := flatten (train_images d) in
  let test_images := flatten (test_images d) in
  {| p_train_images := add_time_axis train_images;
     p_train_labels := add_time_and_unit_axis (train_labels d);
     p_test_images := tile (add_time_axis test_images) (1, n_steps, 1)%nat;
     p_test_labels :=
       tile (add_time_and_unit_axis (test_labels d)) (1, n_steps, 1)%nat |}.

(** The two steps as the cells run them: the reshape of the training
    images, then that of the test images, either of which fails on an
    empty stack; then the time axis. *)
Definition prepare_checked {pixel label} (d : dataset pixel label)
    : option (prepared pixel label) :=
  match flatten_checked (train_images d) with
  | None => None
  | Some train =>
      match flatten_checked (test_images d) with
      | None => None
      | Some test =>
          Some {| p_train_images := add_time_axis train;
                  p_train_labels := add_time_and_unit_axis (train_labels d);
                  p_test_images := tile (add_time_axis test) (1, n_steps, 1)%nat;
                  p_test_labels :=
                    tile (add_time_and_unit_axis (test_labels d))
                      (1, n_steps, 1)%nat |}
      end
  end.

Section Accuracy.

(** [tf.metrics.sparse_categorical_accuracy] belongs to TensorFlow: any
    function of the labels and predictions it is handed. *)
Context {L P R : Type}.
Variable sparse_categorical_accuracy : list L -> list P -> R.

(** [def classification_accuracy(y_true, y_pred)]: [None] stands for the
    IndexError of [y[:, -1]] on an empty time axis. *)
Definition classification_accuracy
    (y_true : list (list L)) (y_pred : list (list P)) : option R :=
  match column y_true (-1), column y_pred (-1) with
  | Some t, Some p => Some (sparse_categorical_accuracy t p)
  | _, _ => None
  end.

End Accuracy.

(** An instance to run the definitions on: integer scores, one flag per
    example telling whether the label is the position of the first
    greatest score. *)
Fixpoint argmax_from (best : Z) (best_at at_ : nat) (l : list Z) : nat :=
  match l with
  | [] => best_at
  | x :: l' =>
      if (best <? x)%Z then argmax_from x at_ (S at_) l'
      else argmax_from best best_at (S at_) l'
  end.

Definition argmax (l : list Z) : nat :=
  match l with
  | [] => 0%nat
  | x :: l' => argmax_from x 0%nat 1%nat l'
  end.

Definition hits (labels : list (list nat)) (scores : list (list Z)) : list bool :=
  zip_with (fun lab sc => bool_decide (lab = [argmax sc])) labels scores.

(** [np.reshape(v, (rows, cols))] and [v.reshape((rows, cols))] on a vector:
    the vector is cut into [rows] rows of [cols] entries; [None] stands for
    the ValueError raised when it does not have [rows * cols] entries. *)
Fixpoint rows_of {A} (rows cols : nat) (v : list A) : list (list A) :=
  match rows with
  | O => []
  | S r => take cols v :: rows_of r cols (drop cols v)
  end.

Definition reshape {A} (v : list A) (shape : nat * nat) : option (list (list A)) :=
  let '(rows, cols) := shape in
  if (length v =? rows * cols)%nat then Some (rows_of rows cols v) else None.

(** An image of the given height and width. *)
Definition has_shape {A} (rows cols : nat) (img : list (list A)) : Prop :=
  length img = rows /\ Forall (fun row => length row = cols) img.

(** What the first figure shows for training example [i]:
    [np.reshape(train_images[i], (28, 28))], after the flatten step. *)
Definition sample_shown {pixel label} (d : dataset pixel label) (i : nat)
    : option (list (list pixel)) :=
  match flatten (train_images d) !! i with
  | Some v => reshape v (28, 28)%nat
  | None => None
  end.

(** What the last figures show for test example [i]:
    [test_images[i, 0].reshape((28, 28))], after the time-axis step. *)
Definition result_shown {pixel label} (d : dataset pixel label) (i : nat)
    : option (list (list pixel)) :=
  match at2 (p_test_images (prepare d)) i 0 with
  | Some v => reshape v (28, 28)%nat
  | None => None
  end.

(** Two 2x2 "images" per set, checked at test example 1, steps 0 and 29. *)
Definition tiny : dataset nat nat :=
  Dataset [[[1; 2]; [3; 4]]; [[5; 6]; [7; 8]]]%nat [7; 3]%nat
          [[[9; 8]; [7; 6]]; [[5; 4]; [3; 2]]]%nat [0; 1]%nat.

End Data.

(* ===================================================================== *)
(** ** Questions about the text of a script *)
(* ===================================================================== *)

Module Script.

Definition collect {A B} (f : A -> list B) : list A -> list B :=
  fix go l :=
    match l with
    | [] => []
    | a :: l' => f a ++ go l'
    end.

(** Every call expression inside an expression, in evaluation order. *)
Fixpoint calls_in (e : expr) : list expr :=
  match e with
  | EAttr e' _ => calls_in e'
  | ECall f args kwargs =>
      calls_in f ++ collect calls_in args
        ++ collect (fun kv => calls_in (snd kv)) kwargs ++ [e]
  | ETuple es | EList es => collect calls_in es
  | EDict items =>
      collect (fun kv => calls_in (fst kv) ++ calls_in (snd kv)) items
  | ESubscript a b | ESlice a b | EBinOp _ a b => calls_in a ++ calls_in b
  | EListComp elt _ iter => calls_in iter ++ calls_in elt
  | _ => []
  end.

(** Every call expression of a statement, in every branch. *)
Fixpoint calls_of_stmt (st : stmt) : list expr :=
  match st with
  | SAssign t e => calls_in e ++ calls_in t
  | SExpr e | SReturn e => calls_in e
  | SFor _ iter body => calls_in iter ++ collect calls_of_stmt body
  | SIf c t e => calls_in c ++ collect calls_of_stmt t ++ collect calls_of_stmt e
  | SWith ctx _ body => calls_in ctx ++ collect calls_of_stmt body
  | SDef _ _ body => collect calls_of_stmt body
  | STry b h => collect calls_of_stmt b ++ collect calls_of_stmt h
  | _ => []
  end.

Definition all_calls (p : list stmt) : list expr := collect calls_of_stmt p.

(** The calls of a script whose callee is spelled [f]. *)
Definition calls_to (f : list string) (p : list stmt) : list expr :=
  List.filter (calls f) (all_calls p).

(** The census of control flow: if statements, for loops, list
    comprehensions, try statements, function definitions. *)
Record census := Census {
  ifs : nat; fors : nat; comprehensions : nat; tries : nat; defs : nat
}.

Definition plus (a b : census) : census :=
  Census (ifs a + ifs b) (fors a + fors b)
         (comprehensions a + comprehensions b)
         (tries a + tries b) (defs a + defs b).

Definition none : census := Census 0 0 0 0 0.

Definition total {A} (f : A -> census) : list A -> census :=
  fix go l :=
    match l with
    | [] => none
    | a :: l' => plus (f a) (go l')
    end.

Fixpoint count_expr (e : expr) : census :=
  match e with
  | EAttr e' _ => count_expr e'
  | ECall f args kwargs =>
      plus (count_expr f)
        (plus (total count_expr args)
              (total (fun kv => count_expr (snd kv)) kwargs))
  | ETuple es | EList es => total count_expr es
  | EDict items =>
      total (fun kv => plus (count_expr (fst kv)) (count_expr (snd kv))) items
  | ESubscript a b | ESlice a b | EBinOp _ a b =>
      plus (count_expr a) (count_expr b)
  | EListComp elt _ iter =>
      plus (Census 0 0 1 0 0) (plus (count_expr elt) (count_expr iter))
  | _ => none
  end.

Fixpoint count (st : stmt) : census :=
  match st with
  | SAssign t e => plus (count_expr t) (count_expr e)
  | SExpr e | SReturn e => count_expr e
  | SFor _ iter body =>
      plus (Census 0 1 0 0 0) (plus (count_expr iter) (total count body))
  | SIf c t e =>
      plus (Census 1 0 0 0 0)
        (plus (count_expr c) (plus (total count t) (total count e)))
  | SWith ctx _ body => plus (count_expr ctx) (total count body)
  | SDef _ _ body => plus (Census 0 0 0 0 1) (total count body)
  | STry b h => plus (Census 0 0 0 1 0) (plus (total count b) (total count h))
  | _ => none
  end.

Definition control_flow (p : list stmt) : census := total count p.

(** The conditions of the if statements and the iterables of the for
    loops, at any depth. *)
Fixpoint conditions (st : stmt) : list expr :=
  match st with
  | SFor _ _ body | SWith _ _ body | SDef _ _ body => collect conditions body
  | SIf c t e => c :: collect conditions t ++ collect conditions e
  | STry b h => collect conditions b ++ collect conditions h
  | _ => []
  end.

Fixpoint iterables (st : stmt) : list expr :=
  match st with
  | SFor _ iter body => iter :: collect iterables body
  | SWith _ _ body | SDef _ _ body => collect iterables body
  | SIf _ t e => collect iterables t ++ collect iterables e
  | STry b h => collect iterables b ++ collect iterables h
  | _ => []
  end.



(** The values assigned to a plain name, at any depth, in order. *)
Fixpoint assigned (x : string) (st : stmt) : list expr :=
  match st with
  | SAssign (EName y) e => if String.eqb x y then [e] else []
  | SFor _ _ body | SWith _ _ body | SDef _ _ body => collect (assigned x) body
  | SIf _ t e => collect (assigned x) t ++ collect (assigned x) e
  | STry b h => collect (assigned x) b ++ collect (assigned x) h
  | _ => []
  end.

Definition assignments (x : string) (p : list stmt) : list expr :=
  collect (assigned x) p.













End Script.

(* ===================================================================== *)
(** ** Reading a run *)
(* ===================================================================== *)

Module Reading.
Import Run Notebook Script.

(** The calls a run attempted on the callee spelled [f], oldest first. *)
Definition attempted (f : list string) (r : result unit * state) : list event :=
  List.filter (fun ev => calls f (ev_call ev)) (calls_of r).

(** The history (most recent first) before the most recent call to [f]. *)
Fixpoint before (f : list string) (h : list event) : list event :=
  match h with
  | [] => []
  | ev :: h' => if calls f (ev_call ev) then h' else before f h'
  end.

(** *** The steps of the tutorial *)

Inductive phase := Fetch | Topology | Construct | TrainOrLoad | Evaluate | Plot.

Definition phase_of (ev : event) : option phase :=
  match ev_call ev with
  | ECall f _ _ =>
      match dotted f with
      | Some ["tf"; "keras"; "datasets"; "mnist"; "load_data"] => Some Fetch
      | Some ("nengo" :: _) => Some Topology
      | Some ["nengo_dl"; "Layer"] => Some Topology
      | Some ["nengo_dl"; "configure_settings"] => Some Topology
      | Some ["tf"; "keras"; "layers"; _] => Some Topology
      | Some ["nengo_dl"; "Simulator"] => Some Construct
      | Some ["sim"; "fit"] => Some TrainOrLoad
      | Some ["sim"; "save_params"] => Some TrainOrLoad
      | Some ["urlretrieve"] => Some TrainOrLoad
      | Some ["sim"; "load_params"] => Some TrainOrLoad
      | Some ["sim"; "evaluate"] => Some Evaluate
      | Some ["sim"; "predict"] => Some Evaluate
      | Some ("plt" :: _) => Some Plot
      | _ => None
      end
  | _ => None
  end.

Definition phase_eqb (a b : phase) : bool :=
  match a, b with
  | Fetch, Fetch | Topology, Topology | Construct, Construct
  | TrainOrLoad, TrainOrLoad | Evaluate, Evaluate | Plot, Plot => true
  | _, _ => false
  end.

(** Consecutive repetitions merged. *)
Fixpoint merged (l : list phase) : list phase :=
  match l with
  | a :: (b :: _) as l' => if phase_eqb a b then merged l' else a :: merged l'
  | _ => l
  end.

Definition phases (r : result unit * state) : list phase :=
  merged (omap phase_of (calls_of r)).

(** *** Data fetched from outside *)

Inductive source :=
| KerasDataset (loader : list string)
| Url (address file : string).

(** [tf.keras.datasets.mnist.load_data] downloads the dataset;
    [urlretrieve(url, file)] copies what is at [url] into [file].  No other
    call of the notebook is a retrieval. *)
Definition fetched (ev : event) : option source :=
  match ev_call ev with
  | ECall f _ _ =>
      match dotted f, ev_args ev with
      | Some ["tf"; "keras"; "datasets"; "mnist"; "load_data"], _ =>
          Some (KerasDataset ["tf"; "keras"; "datasets"; "mnist"])
      | Some ["urlretrieve"], [VStr url; VStr file] => Some (Url url file)
      | _, _ => None
      end
  | _ => None
  end.

Definition fetches (r : result unit * state) : list source :=
  omap fetched (calls_of r).

(** *** The parameter file *)

Inductive file_op :=
| Download (url file : string)
| Save (path : string)
| Load (path : string).

Definition file_op_of (ev : event) : option file_op :=
  match ev_call ev with
  | ECall f _ _ =>
      match dotted f, ev_args ev with
      | Some ["urlretrieve"], [VStr url; VStr file] => Some (Download url file)
      | Some ["sim"; "save_params"], [VStr path] => Some (Save path)
      | Some ["sim"; "load_params"], [VStr path] => Some (Load path)
      | _, _ => None
      end
  | _ => None
  end.

Definition file_ops (r : result unit * state) : list file_op :=
  omap file_op_of (calls_of r).

Definition is_save (op : file_op) : bool :=
  match op with Save _ => true | _ => false end.

Definition is_load (op : file_op) : bool :=
  match op with Load _ => true | _ => false end.

(** Who wrote a file last. *)
Inductive origin := Saved | Downloaded (url : string).

Section Store.

(** The file in which the framework keeps the parameters of a path: this
    is decided inside [Simulator.save_params] and [load_params], whose code
    is not part of the notebook. *)
Variable param_file : string -> string.

(** The files, and what each load call found (oldest first). *)
Definition store_step (st : gmap string origin * list (option origin))
    (op : file_op) : gmap string origin * list (option origin) :=
  match op with
  | Download url file => (<[file := Downloaded url]> (fst st), snd st)
  | Save path => (<[param_file path := Saved]> (fst st), snd st)
  | Load path => (fst st, snd st ++ [fst st !! param_file path])
  end.

Definition replay (files : gmap string origin) (ops : list file_op)
    : gmap string origin * list (option origin) :=
  fold_left store_step ops (files, []).

Definition loaded (files : gmap string origin) (ops : list file_op)
    : list (option origin) :=
  snd (replay files ops).

End Store.

(** Parameters of [p] kept in [p.npz], relative to the working directory. *)
Definition npz_file (path : string) : string :=
  match path with
  | String "." (String "/" rest) => String.append rest ".npz"
  | _ => String.append path ".npz"
  end.

(** *** Training and evaluation calls, with the configuration in force *)

Record config := Config { optimizer : option expr; loss : option expr }.

(** [sim.compile(...)] sets the configuration; [sim.fit] and
    [sim.evaluate] run under the one set last. *)
Definition sim_step (st : config * list (expr * config)) (ev : event)
    : config * list (expr * config) :=
  let e := ev_call ev in
  if calls ["sim"; "compile"] e then
    (Config (kwarg "optimizer" (call_kwargs e)) (kwarg "loss" (call_kwargs e)),
     snd st)
  else if calls ["sim"; "fit"] e || calls ["sim"; "evaluate"] e then
    (fst st, snd st ++ [(e, fst st)])
  else st.

Definition sim_log (r : result unit * state) : list (expr * config) :=
  snd (fold_left sim_step (calls_of r) (Config None None, [])).

(** The method of a call on [sim]. *)
Definition sim_method (e : expr) : option string :=
  match e with
  | ECall (EAttr (EName "sim") m) _ _ => Some m
  | _ => None
  end.

(** [f(inputs, {probe: targets}, options...)] *)
Definition feeds (e : expr) : option (string * string * string) :=
  match e with
  | ECall _ [EName inputs; EDict [(EName probe, EName targets)]] _ =>
      Some (inputs, probe, targets)
  | _ => None
  end.

(** *** The layers of the network *)

Inductive layer_kind :=
| Convolution (filters : Z)
| Neurons
| DenseReadout (units : Z)
| OtherLayer.

Definition value_of_int (e : option expr) : Z :=
  match e with Some (EInt n) => n | _ => 0%Z end.

(** What [nengo_dl.Layer(f)] wraps: a Keras layer, or the neuron type. *)
Definition kind_of (f : expr) : layer_kind :=
  if calls ["tf"; "keras"; "layers"; "Conv2D"] f then
    Convolution (value_of_int (kwarg "filters" (call_kwargs f)))
  else if calls ["tf"; "keras"; "layers"; "Dense"] f then
    DenseReadout (value_of_int (kwarg "units" (call_kwargs f)))
  else match f with
       | EName "neuron_type" => Neurons
       | _ => OtherLayer
       end.

Record layer := Layer { target : string; kind : layer_kind; input : expr }.

(** [target = nengo_dl.Layer(f)(input, ...)] *)
Definition layer_of (st : stmt) : option layer :=
  match st with
  | SAssign (EName t)
      (ECall (ECall (EAttr (EName "nengo_dl") "Layer") [f] []) [x] _) =>
      Some (Layer t (kind_of f) x)
  | _ => None
  end.

(** The networks a script declares: for each [with nengo.Network(..) as n],
    the name [n] and the layers built inside it. *)
Definition network_of (st : stmt) : option (string * list layer) :=
  match st with
  | SWith ctx n body =>
      if calls ["nengo"; "Network"] ctx then Some (n, omap layer_of body)
      else None
  | _ => None
  end.

Definition networks (p : list stmt) : list (string * list layer) :=
  omap network_of p.

(** Each layer is applied to the output of the one before. *)
Fixpoint chained (prev : string) (ls : list layer) : bool :=
  match ls with
  | [] => true
  | l :: ls' =>
      match input l with
      | EName x => String.eqb x prev && chained (target l) ls'
      | _ => false
      end
  end.

(** *** The notebook's own runs *)

(** The part of a history after the most recent call to [f] (most recent
    first), and that call. *)
Fixpoint since (f : list string) (h : list event) : list event :=
  match h with
  | [] => []
  | ev :: h' => if calls f (ev_call ev) then [] else ev :: since f h'
  end.

Fixpoint found (f : list string) (h : list event) : option event :=
  match h with
  | [] => None
  | ev :: h' => if calls f (ev_call ev) then Some ev else found f h'
  end.

Definition dataset : source := KerasDataset ["tf"; "keras"; "datasets"; "mnist"].
Definition download : file_op := Download weights_url "mnist_params.npz".
Definition load : file_op := Load "./mnist_params".

Definition download_event : event :=
  Event (ECall (name "urlretrieve")
           [EStr weights_url; EStr "mnist_params.npz"] [])
        [VStr weights_url; VStr "mnist_params.npz"] [].

Definition load_event : event :=
  Event (ECall (path ["sim"; "load_params"]) [EStr "./mnist_params"] [])
        [VStr "./mnist_params"] [].

(** [a] occurs in [b], in order, not necessarily side by side. *)
Fixpoint in_order (a b : list phase) : bool :=
  match a, b with
  | [], _ => true
  | _ :: _, [] => false
  | x :: a', y :: b' =>
      if phase_eqb x y then in_order a' b' else in_order a b'
  end.

Definition steps_of_the_tutorial : list phase :=
  [Fetch; Plot; Topology; Construct; Evaluate; TrainOrLoad; Evaluate; Plot].

(** Convolutions, each followed by neurons, then a dense readout of ten
    units. *)
Fixpoint conv_stack_with_readout (ks : list layer_kind) : bool :=
  match ks with
  | [DenseReadout 10] => true
  | Convolution _ :: Neurons :: ks' => conv_stack_with_readout ks'
  | _ => false
  end.

Definition the_layers : list layer :=
  [ Layer "x" (Convolution 32) (name "inp");
    Layer "x" Neurons (name "x");
    Layer "x" (Convolution 64) (name "x");
    Layer "x" Neurons (name "x");
    Layer "x" (Convolution 128) (name "x");
    Layer "x" Neurons (name "x");
    Layer "out" (DenseReadout 10) (name "x") ].

Definition simulator_call : expr :=
  ECall (path ["nengo_dl"; "Simulator"]) [name "net"]
    [("minibatch_size", name "minibatch_size")].

(** The shapes written in the source fit: with Keras' default padding a
    convolution of kernel [k] and stride [s] turns [h x w x c] into
    [((h-k)/s+1) x ((w-k)/s+1) x filters]. *)
Definition conv_out (shape : Z * Z * Z) (filters kernel strides : Z) : Z * Z * Z :=
  let '(h, w, _) := shape in
  ((h - kernel) / strides + 1, (w - kernel) / strides + 1, filters)%Z.

Definition conv_of (st : stmt) : option (Z * Z * Z * (Z * Z * Z)) :=
  match st with
  | SAssign _
      (ECall (ECall (EAttr (EName "nengo_dl") "Layer") [f] []) _
         [("shape_in", ETuple [EInt h; EInt w; EInt c])]) =>
      if calls ["tf"; "keras"; "layers"; "Conv2D"] f then
        Some (value_of_int (kwarg "filters" (call_kwargs f)),
              value_of_int (kwarg "kernel_size" (call_kwargs f)),
              match kwarg "strides" (call_kwargs f) with
              | Some (EInt s) => s
              | _ => 1%Z
              end,
              (h, w, c))
      else None
  | _ => None
  end.

Definition convolutions (p : list stmt) : list (Z * Z * Z * (Z * Z * Z)) :=
  collect (fun st => match st with
                     | SWith _ _ body => omap conv_of body
                     | _ => []
                     end) p.

Definition accuracy_config : config :=
  Config None
    (Some (EDict [(name "out_p_filt", name "classification_accuracy")])).

Definition training_config : config :=
  Config
    (Some (ECall (path ["tf"; "optimizers"; "RMSprop"]) [EFloat "0.001"] []))
    (Some (EDict [(name "out_p",
                   ECall (path ["tf"; "losses"; "SparseCategoricalCrossentropy"])
                     [] [("from_logits", EBool true)])])).

Definition fit_call : expr :=
  ECall (path ["sim"; "fit"])
    [name "train_images"; EDict [(name "out_p", name "train_labels")]]
    [("epochs", EInt 10)].

Definition evaluate_call : expr :=
  ECall (path ["sim"; "evaluate"])
    [name "test_images"; EDict [(name "out_p_filt", name "test_labels")]]
    [("verbose", EInt 0)].

(** *** Orders among the calls of a run *)

(** Every call satisfying [q] comes after some call satisfying [p]
    ([seen]: one has been seen already). *)
Fixpoint every_preceded (p q : event -> bool) (seen : bool) (l : list event)
    : bool :=
  match l with
  | [] => true
  | ev :: l' =>
      (negb (q ev) || seen) && every_preceded p q (seen || p ev) l'
  end.

(** No call satisfying [q] comes after a call satisfying [p]. *)
Fixpoint none_after (p q : event -> bool) (seen : bool) (l : list event)
    : bool :=
  match l with
  | [] => true
  | ev :: l' => negb (seen && q ev) && none_after p q (seen || p ev) l'
  end.

Definition on_simulator (ev : event) : bool :=
  match sim_method (ev_call ev) with Some _ => true | None => false end.

Definition constructs_simulator (ev : event) : bool :=
  calls ["nengo_dl"; "Simulator"] (ev_call ev).

Definition closes_simulator (ev : event) : bool :=
  calls ["sim"; "close"] (ev_call ev).

Definition evaluates (ev : event) : bool :=
  calls ["sim"; "evaluate"] (ev_call ev).

(** The calls that change the weights of the simulator. *)
Definition sets_weights (ev : event) : bool :=
  calls ["sim"; "fit"] (ev_call ev) || calls ["sim"; "load_params"] (ev_call ev).

(** [plt.subplot(rows, cols, index)] asks for a cell of the grid. *)
Definition subplot_in_grid (ev : event) : bool :=
  if calls ["plt"; "subplot"] (ev_call ev) then
    match ev_args ev with
    | [VInt rows; VInt cols; VInt index] =>
        (1 <=? index)%Z && (index <=? rows * cols)%Z
    | _ => false
    end
  else true.

Definition downloads (ev : event) : bool :=
  calls ["urlretrieve"] (ev_call ev).

Definition loads_weights (ev : event) : bool :=
  calls ["sim"; "load_params"] (ev_call ev).

Definition fits (ev : event) : bool := calls ["sim"; "fit"] (ev_call ev).

Definition saves_weights (ev : event) : bool :=
  calls ["sim"; "save_params"] (ev_call ev).

(** The calls that come after the weights cell: the report of the accuracy
    "after training", [sim.predict] and [sim.close]. *)
Definition after_weights_cell (ev : event) : bool :=
  calls ["sim"; "predict"] (ev_call ev)
  || calls ["sim"; "close"] (ev_call ev)
  || (calls ["print"] (ev_call ev)
      && match ev_args ev with
         | VStr title :: _ => String.eqb title "Accuracy after training:"
         | _ => false
         end).

Definition fit_event : event :=
  Event fit_call [VOpaque; VOpaque] [("epochs", VInt 10)].

Definition save_event : event :=
  Event (ECall (path ["sim"; "save_params"]) [EStr "./mnist_params"] [])
        [VStr "./mnist_params"] [].

(** *** Worlds *)

(** A module is missing: [import nengo_dl] fails. *)
Definition import_fails : World :=
  fun _ ev =>
    if calls ["__import__"] (ev_call ev)
       && match ev_args ev with
          | [VStr m] => String.eqb m "nengo_dl"
          | _ => false
          end
    then Some "ModuleNotFoundError" else None.

(** The dataset cannot be fetched. *)
Definition dataset_unavailable : World :=
  fun _ ev =>
    if calls ["tf"; "keras"; "datasets"; "mnist"; "load_data"] (ev_call ev)
    then Some "URLError" else None.

(** The download of the pretrained weights fails. *)
Definition download_fails : World :=
  fun _ ev =>
    if calls ["urlretrieve"] (ev_call ev) then Some "HTTPError" else None.

(** Everything works until the last figure is laid out. *)
Definition plotting_fails_late : World :=
  fun h ev =>
    if calls ["plt"; "tight_layout"] (ev_call ev)
       && (4 <=? length (List.filter
                           (fun ev' => calls ["plt"; "tight_layout"] (ev_call ev'))
                           h))%nat
    then Some "RuntimeError" else None.

End Reading.

(* ===================================================================== *)
(** ** How a run in any world relates to the run in which nothing raises *)
(* ===================================================================== *)

Module Theory.
Import Run.

(** Induction over expressions and statements, through their lists. *)
Section ExprInd.
  Variable P : expr -> Prop.
  Hypothesis HName : forall x, P (EName x).
  Hypothesis HInt : forall n, P (EInt n).
  Hypothesis HFloat : forall l, P (EFloat l).
  Hypothesis HStr : forall s, P (EStr s).
  Hypothesis HBool : forall b, P (EBool b).
  Hypothesis HNone : P ENone.
  Hypothesis HAttr : forall e a, P e -> P (EAttr e a).
  Hypothesis HCall : forall f args kw,
      P f -> Forall P args -> Forall (fun kv => P (snd kv)) kw ->
      P (ECall f args kw).
  Hypothesis HTuple : forall es, Forall P es -> P (ETuple es).
  Hypothesis HList : forall es, Forall P es -> P (EList es).
  Hypothesis HDict : forall items,
      Forall (fun kv => P (fst kv) /\ P (snd kv)) items -> P (EDict items).
  Hypothesis HSubscript : forall e i, P e -> P i -> P (ESubscript e i).
  Hypothesis HSlice : forall lo hi, P lo -> P hi -> P (ESlice lo hi).
  Hypothesis HBinOp : forall op l r, P l -> P r -> P (EBinOp op l r).
  Hypothesis HListComp : forall elt x iter,
      P elt -> P iter -> P (EListComp elt x iter).

Fixpoint expr_induction (e : expr) : P e :=
    let all :=
      fix all (l : list expr) : Forall P l :=
        match l with
        | [] => @List.Forall_nil _ P
        | x :: l' => @List.Forall_cons _ P x l' (expr_induction x) (all l')
        end in
    match e with
    | EName x => HName x
    | EInt n => HInt n
    | EFloat l => HFloat l
    | EStr s => HStr s
    | EBool b => HBool b
    | ENone => HNone
    | EAttr e' a => HAttr e' a (expr_induction e')
    | ECall f args kw =>
        HCall f args kw (expr_induction f) (all args)
          ((fix go (l : list (string * expr)) :
              Forall (fun kv => P (snd kv)) l :=
              match l with
              | [] => @List.Forall_nil _ _
              | kv :: l' =>
                  @List.Forall_cons _ (fun kv => P (snd kv)) kv l'
                    (expr_induction (snd kv)) (go l')
              end) kw)
    | ETuple es => HTuple es (all es)
    | EList es => HList es (all es)
    | EDict items =>
        HDict items
          ((fix go (l : list (expr * expr)) :
              Forall (fun kv => P (fst kv) /\ P (snd kv)) l :=
              match l with
              | [] => @List.Forall_nil _ _
              | kv :: l' =>
                  @List.Forall_cons _ (fun kv => P (fst kv) /\ P (snd kv)) kv l'
                    (conj (expr_induction (fst kv)) (expr_induction (snd kv)))
                    (go l')
              end) items)
    | ESubscript e' i => HSubscript e' i (expr_induction e') (expr_induction i)
    | ESlice lo hi => HSlice lo hi (expr_induction lo) (expr_induction hi)
    | EBinOp op l r => HBinOp op l r (expr_induction l) (expr_induction r)
    | EListComp elt x iter =>
        HListComp elt x iter (expr_induction elt) (expr_induction iter)
    end.
End ExprInd.

Section StmtInd.
  Variable P : stmt -> Prop.
  Hypothesis HMagic : forall m l, P (SMagic m l).
  Hypothesis HImport : forall m a, P (SImport m a).
  Hypothesis HFromImport : forall m n, P (SFromImport m n).
  Hypothesis HAssign : forall t e, P (SAssign t e).
  Hypothesis HExpr : forall e, P (SExpr e).
  Hypothesis HFor : forall x it body, Forall P body -> P (SFor x it body).
  Hypothesis HIf : forall c t e, Forall P t -> Forall P e -> P (SIf c t e).
  Hypothesis HWith : forall c x body, Forall P body -> P (SWith c x body).
  Hypothesis HDef : forall f ps body, Forall P body -> P (SDef f ps body).
  Hypothesis HReturn : forall e, P (SReturn e).
  Hypothesis HTry : forall b h, Forall P b -> Forall P h -> P (STry b h).

Fixpoint stmt_induction (st : stmt) : P st :=
    let all :=
      fix all (l : list stmt) : Forall P l :=
        match l with
        | [] => @List.Forall_nil _ P
        | x :: l' => @List.Forall_cons _ P x l' (stmt_induction x) (all l')
        end in
    match st with
    | SMagic m l => HMagic m l
    | SImport m a => HImport m a
    | SFromImport m n => HFromImport m n
    | SAssign t e => HAssign t e
    | SExpr e => HExpr e
    | SFor x it body => HFor x it body (all body)
    | SIf c t e => HIf c t e (all t) (all e)
    | SWith c x body => HWith c x body (all body)
    | SDef f ps body => HDef f ps body (all body)
    | SReturn e => HReturn e
    | STry b h => HTry b h (all b) (all h)
    end.
End StmtInd.


Section Tracking.

Variable w : World.

(** What does not touch the history is the same in every world. *)
Lemma tracks_pure {A} (m : M A) :
  (forall s, trace (snd (m s)) = trace s) -> tracks w m m.
Proof.
  intros H; split.
  - intros s Hs. apply Same; [reflexivity | rewrite H; exact Hs].
  - intros s. exists []. apply (H s).
Qed.

Lemma tracks_ret {A} (a : A) : tracks w (ret a) (ret a).
Proof. apply tracks_pure; intros s; reflexivity. Qed.

Lemma tracks_fault {A} : tracks w (@fault A) (@fault A).
Proof. apply tracks_pure; intros s; reflexivity. Qed.

Lemma tracks_raise {A} e : tracks w (@raise A e) (@raise A e).
Proof. apply tracks_pure; intros s; reflexivity. Qed.

Lemma tracks_lookup x : tracks w (lookup_name x) (lookup_name x).
Proof.
  apply tracks_pure; intros s. unfold lookup_name.
  destruct (env s !! x); reflexivity.
Qed.

Lemma tracks_set x v : tracks w (set_name x v) (set_name x v).
Proof. apply tracks_pure; intros s; reflexivity. Qed.

Lemma tracks_attempt ev v : tracks w (attempt w ev v) (attempt quiet ev v).
Proof.
  split.
  - intros s Hs. unfold attempt, quiet.
    destruct (w (trace s) ev) as [e|] eqn:Hw.
    + apply (Cut w _ _ e ev (trace s) []); simpl; auto.
    + apply Same; simpl; auto.
  - intros s. exists [ev]. reflexivity.
Qed.

Lemma grows_bind {A B} (m : M A) (f : A -> M B) :
  grows m -> (forall a, grows (f a)) -> grows (bind m f).
Proof.
  intros Hm Hf s. unfold bind.
  destruct (Hm s) as [more Hmore].
  destruct (m s) as [[a|e|] s1]; simpl in *.
  - destruct (Hf a s1) as [more' Hmore'].
    exists (more' ++ more). rewrite Hmore', Hmore. apply app_assoc.
  - exists more. exact Hmore.
  - exists more. exact Hmore.
Qed.

Lemma tracks_bind {A B} (m mq : M A) (f fq : A -> M B) :
  tracks w m mq -> (forall a, tracks w (f a) (fq a)) ->
  tracks w (bind m f) (bind mq fq).
Proof.
  intros [Hm Gm] Hf; split.
  - intros s Hs. unfold bind.
    destruct (Hm s Hs) as [Heq Hc | e ev h more Hr Ht Hw Hc Hq].
    + rewrite <- Heq.
      destruct (m s) as [[a|e|] s1]; simpl in *.
      * apply (Hf a); exact Hc.
      * apply Same; simpl; auto.
      * apply Same; simpl; auto.
    + destruct (m s) as [r s1]; simpl in *; subst r.
      destruct (mq s) as [[a|e'|] sq]; simpl in *.
      * destruct (proj2 (Hf a) sq) as [more' Hmore'].
        apply (Cut w _ _ e ev h (more' ++ more)); simpl; auto.
        rewrite Hmore', Hq. apply app_assoc.
      * apply (Cut w _ _ e ev h more); simpl; auto.
      * apply (Cut w _ _ e ev h more); simpl; auto.
  - apply grows_bind; [exact Gm | intros a; apply (Hf a)].
Qed.

Lemma tracks_in_scope {A} (m mq : M A) :
  tracks w m mq -> tracks w (in_scope m) (in_scope mq).
Proof.
  intros [Hm Gm]; split.
  - intros s Hs. unfold in_scope.
    destruct (Hm s Hs) as [Heq Hc | e ev h more Hr Ht Hw Hc Hq].
    + rewrite <- Heq. destruct (m s) as [r s1]; simpl in *.
      apply Same; simpl; auto.
    + destruct (m s) as [r s1], (mq s) as [rq sq]; simpl in *.
      apply (Cut w _ _ e ev h more); simpl; auto.
  - intros s. unfold in_scope. destruct (Gm s) as [more Hmore].
    destruct (mq s) as [rq sq]; simpl in *. exists more. exact Hmore.
Qed.

Lemma tracks_mapM {A B} (f fq : A -> M B) (l : list A) :
  Forall (fun a => tracks w (f a) (fq a)) l ->
  tracks w (mapM f l) (mapM fq l).
Proof.
  induction 1 as [|a l Ha _ IH]; simpl.
  - apply tracks_ret.
  - apply tracks_bind; [exact Ha | intros b].
    apply tracks_bind; [exact IH | intros bs]. apply tracks_ret.
Qed.

Lemma tracks_seqM {A} (f fq : A -> M unit) (l : list A) :
  Forall (fun a => tracks w (f a) (fq a)) l ->
  tracks w (seqM f l) (seqM fq l).
Proof.
  induction 1 as [|a l Ha _ IH]; simpl.
  - apply tracks_ret.
  - apply tracks_bind; [exact Ha | intros _; exact IH].
Qed.

Lemma tracks_for_each (body bodyq : Z -> M unit) n :
  (forall i, tracks w (body i) (bodyq i)) ->
  forall i, tracks w (for_each body i n) (for_each bodyq i n).
Proof.
  intros Hb. induction n as [|n IH]; intros i; simpl.
  - apply tracks_ret.
  - apply tracks_bind; [apply Hb | intros _; apply IH].
Qed.

Ltac step :=
  first [ apply tracks_ret | apply tracks_fault | apply tracks_raise
        | apply tracks_lookup | apply tracks_set | apply tracks_attempt
        | apply tracks_in_scope | apply tracks_for_each
        | apply tracks_bind | assumption ].

(** [step], through the case distinctions on values. *)
Ltac steps :=
  repeat first
    [ step
    | intro
    | match goal with
      | |- tracks _ (match ?v with _ => _ end) _ => destruct v
      end ].

Lemma tracks_eval (e : expr) : tracks w (eval w e) (eval quiet e).
Proof.
  induction e as
    [x|n|l|s|b| |e a IH|f args kw IHf IHargs IHkw|es IH|es IH|items IH
    |e i IHe IHi|lo hi IHlo IHhi|op l r IHl IHr|elt x iter IHelt IHiter]
    using expr_induction; simpl; try (steps; fail).
  - apply tracks_bind; [exact IHf | intros vf].
    apply tracks_bind; [apply tracks_mapM; exact IHargs | intros vs].
    apply tracks_bind; [|intros kvs; steps].
    apply tracks_mapM. eapply Forall_impl; [exact IHkw|].
    intros kv Hkv; simpl in *. steps.
  - apply tracks_bind; [apply tracks_mapM; exact IH | steps].
  - apply tracks_bind; [apply tracks_mapM; exact IH | steps].
  - apply tracks_bind; [|intros kvs; steps].
    apply tracks_mapM. eapply Forall_impl; [exact IH|].
    intros kv [Hk Hv]; simpl in *. steps.
Qed.

Lemma tracks_assign (t : expr) :
  forall v, tracks w (assign w t v) (assign quiet t v).
Proof.
  induction t as
    [x|n|l|s|b| |e a IH|f args kw IHf IHargs IHkw|es IH|es IH|items IH
    |e i IHe IHi|lo hi IHlo IHhi|op l r IHl IHr|elt x iter IHelt IHiter]
    using expr_induction; intros v; simpl; try (steps; fail).
  - apply tracks_bind; [apply tracks_eval | steps].
  - destruct v as [| | | |vs| | |]; try (steps; fail).
    + revert vs. induction IH as [|t ts Ht _ IHts]; intros [|v vs].
      * apply tracks_ret.
      * apply tracks_raise.
      * apply tracks_raise.
      * apply tracks_bind; [apply Ht | intros _; apply IHts].
    + apply tracks_bind; [step | intros _].
      apply tracks_seqM. eapply Forall_impl; [exact IH|].
      intros t Ht; apply Ht.
  - apply tracks_bind; [apply tracks_eval | intros].
    apply tracks_bind; [apply tracks_eval | steps].
Qed.

Lemma no_try_in (l : list stmt) (st : stmt) :
  existsb has_try l = false -> In st l -> has_try st = false.
Proof.
  intros Hl Hin. destruct (has_try st) eqn:Hst; [|reflexivity].
  rewrite <- Hl. symmetry. apply existsb_exists. exists st. split; assumption.
Qed.

Lemma tracks_block (f fq : stmt -> M unit) (l : list stmt) :
  Forall (fun st => has_try st = false -> tracks w (f st) (fq st)) l ->
  existsb has_try l = false ->
  tracks w (seqM f l) (seqM fq l).
Proof.
  intros IH Hno. apply tracks_seqM.
  rewrite Forall_forall in *. intros st Hin.
  apply IH; [exact Hin|].
  apply (no_try_in l); [exact Hno | apply list_elem_of_In; exact Hin].
Qed.

Lemma tracks_exec (st : stmt) :
  has_try st = false -> tracks w (exec w st) (exec quiet st).
Proof.
  induction st as
    [m l|m a|m n|t e|e|x it body IH|c t e IHt IHe|c x body IH|f ps body IH
    |e|b h IHb IHh] using stmt_induction; simpl; intros Hno;
    try discriminate; try (steps; fail).
  - apply tracks_bind; [apply tracks_eval | intros; apply tracks_assign].
  - apply tracks_bind; [apply tracks_eval | steps].
  - apply tracks_bind; [apply tracks_eval | intros v].
    destruct v; try (steps; fail).
    apply tracks_for_each; intros i.
    apply tracks_bind; [step | intros _].
    apply tracks_block; assumption.
  - apply orb_false_iff in Hno as [Ht He].
    apply tracks_bind; [apply tracks_eval | intros v].
    destruct (truth v) as [[|]|]; try (steps; fail);
      apply tracks_block; assumption.
  - apply tracks_bind; [apply tracks_eval | intros v].
    apply tracks_bind; [step | intros _].
    apply tracks_block; assumption.
Qed.

(** A block without try/except, run in [w] from a calm history. *)
Theorem exec_block_follows (p : list stmt) (s : state) :
  existsb has_try p = false -> calm w (trace s) ->
  follows w (exec_block w p s) (exec_block quiet p s).
Proof.
  intros Hno Hs.
  assert (Ht : tracks w (exec_block w p) (exec_block quiet p)).
  { apply tracks_block; [|exact Hno].
    apply Forall_forall. intros st _. apply tracks_exec. }
  apply Ht; exact Hs.
Qed.

End Tracking.


Lemma calm_app w (h' h : list event) : calm w (h' ++ h) -> calm w h.
Proof. induction h' as [|ev h' IH]; simpl; [auto | intros [_ H]; auto]. Qed.

Lemma calm_middle w (h' h : list event) ev :
  calm w (h' ++ ev :: h) -> w h ev = None.
Proof. intros H. apply calm_app in H. apply H. Qed.

(** Two ways of cutting the same list: one tail is a tail of the other. *)
Lemma app_eq_tails {A} (a b c d : list A) :
  a ++ b = c ++ d -> (exists k, b = k ++ d) \/ (exists k, d = k ++ b).
Proof.
  revert c. induction a as [|x a IH]; intros c H; simpl in *.
  - left. exists c. exact H.
  - destruct c as [|y c]; simpl in *.
    + right. exists (x :: a). symmetry. exact H.
    + injection H as _ H. apply (IH c H).
Qed.

Section Runs.

Variable w : World.
Variable nb : list cell.
Hypothesis no_handlers : existsb has_try (Notebook.script nb) = false.

Lemma run_follows : follows w (run w nb) (run quiet nb).
Proof using no_handlers.
  apply exec_block_follows; [exact no_handlers | exact I].
Qed.

(** A run that ends without an exception is the quiet run. *)
Lemma run_not_raised :
  not_raised (fst (run w nb)) -> run w nb = run quiet nb.
Proof using no_handlers.
  intros Hnr.
  destruct run_follows as [Heq _ | e ev h more Hr _ _ _ _]; [exact Heq|].
  rewrite Hr in Hnr. contradiction.
Qed.

(** The operations of any run are the first ones of the quiet run. *)
Lemma run_prefix :
  calls_of (run w nb) `prefix_of` calls_of (run quiet nb).
Proof using no_handlers.
  unfold calls_of.
  destruct run_follows as [Heq _ | e ev h more _ Ht _ _ Hq].
  - rewrite Heq. reflexivity.
  - exists (rev more). rewrite Hq, Ht. apply rev_app_distr.
Qed.

(** If an operation of the run raised, it is the last one attempted and
    its exception is the result of the run. *)
Lemma run_raise_is_final e ev h h' :
  trace (snd (run w nb)) = h' ++ ev :: h -> w h ev = Some e ->
  h' = [] /\ fst (run w nb) = Raised e.
Proof using no_handlers.
  intros Ht Hw.
  destruct run_follows as [_ Hc | e0 ev0 h0 more Hr Ht0 Hw0 Hc _].
  - rewrite Ht in Hc. apply calm_middle in Hc. congruence.
  - rewrite Ht in Ht0. destruct h' as [|x h']; simpl in Ht0.
    + injection Ht0 as -> ->. split; [reflexivity | congruence].
    + injection Ht0 as _ <-. apply calm_middle in Hc. congruence.
Qed.

(** A run ends in an exception because its last operation raised it in
    [w], or because the script raises it in every world. *)
Lemma run_raised_by_last_operation e :
  fst (run w nb) = Raised e ->
  (exists ev h,
      trace (snd (run w nb)) = ev :: h /\ w h ev = Some e /\ calm w h) \/
  fst (run quiet nb) = Raised e.
Proof using no_handlers.
  intros Hr.
  destruct run_follows as [Heq _ | e0 ev h more Hr0 Ht Hw Hc _].
  - right. rewrite <- Heq. exact Hr.
  - left. exists ev, h. rewrite Hr in Hr0. injection Hr0 as ->. auto.
Qed.

(** An operation of the quiet run is attempted in [w] as soon as the
    operations before it succeed in [w]. *)
Lemma run_reaches ev before after :
  trace (snd (run quiet nb)) = after ++ ev :: before ->
  calm w before ->
  exists later, trace (snd (run w nb)) = later ++ ev :: before.
Proof using no_handlers.
  intros Hq Hc.
  destruct run_follows as [Heq _ | e0 ev0 h0 more _ Ht Hw0 Hc0 Hq0].
  - rewrite Heq. exists after. exact Hq.
  - rewrite Hq in Hq0.
    destruct (app_eq_tails _ _ _ _ Hq0) as [[k Hk] | [k Hk]].
    + destruct k as [|x k]; simpl in Hk.
      * exists []. rewrite Ht. symmetry. exact Hk.
      * injection Hk as _ Hk. rewrite Hk in Hc.
        apply calm_middle in Hc. congruence.
    + exists k. rewrite Ht. exact Hk.
Qed.

End Runs.

End Theory.

(* ===================================================================== *)
(** ** Facts about the array code *)
(* ===================================================================== *)

Module DataFacts.
Import Data.

Lemma repeat_along_1 {B} (l : list B) : repeat_along 1 l = l.
Proof. unfold repeat_along. simpl. apply app_nil_r. Qed.

Lemma repeat_along_singleton {B} (n : nat) (x : B) :
  repeat_along n [x] = replicate n x.
Proof.
  unfold repeat_along. induction n as [|n IH]; simpl; [reflexivity|].
  f_equal. exact IH.
Qed.

Lemma map_repeat_along_1 {B} (l : list (list B)) :
  map (repeat_along 1) l = l.
Proof.
  induction l as [|x l IH]; simpl; [reflexivity|].
  rewrite repeat_along_1, IH. reflexivity.
Qed.

(** Tiling a one-step array [n] times over time repeats the step. *)
Lemma tile_time {A} (x : list (list A)) (n : nat) :
  tile (add_time_axis x) (1, n, 1)%nat = map (replicate n) x.
Proof.
  unfold tile, add_time_axis. rewrite repeat_along_1, map_map.
  apply map_ext. intros row. simpl.
  rewrite repeat_along_1. apply repeat_along_singleton.
Qed.

Lemma tile_time_labels {A} (y : list A) (n : nat) :
  tile (add_time_and_unit_axis y) (1, n, 1)%nat
  = map (fun a => replicate n [a]) y.
Proof.
  unfold tile, add_time_and_unit_axis. rewrite repeat_along_1, map_map.
  apply map_ext. intros a. simpl.
  rewrite repeat_along_1. apply repeat_along_singleton.
Qed.

(** The last element of a non-empty row is at index -1. *)
Lemma index_last {A} (l : list A) : index l (-1) = last l.
Proof.
  unfold index. simpl.
  destruct l as [|x l]; [reflexivity|].
  replace (0 <=? Z.of_nat (length (x :: l)) + -1)%Z with true
    by (symmetry; apply Z.leb_le; simpl; lia).
  rewrite last_lookup. f_equal. simpl length. lia.
Qed.

Lemma column_agree {A} (y y' : list (list A)) (i : Z) :
  Forall2 (fun row row' => index row i = index row' i) y y' ->
  column y i = column y' i.
Proof.
  induction 1 as [|row row' y y' Hrow _ IH]; simpl; [reflexivity|].
  rewrite Hrow, IH. reflexivity.
Qed.

End DataFacts.

(* ===================================================================== *)
(** ** Properties of the array code *)
(* ===================================================================== *)

Section DataProperties.
Import Data DataFacts.

(** C8.  [classification_accuracy] depends on the final timestep only: when
    two pairs of inputs have the same slice at index -1 along the time axis
    for every example, it returns the same value (or fails alike), whatever
    the earlier timesteps hold and however many there are. *)
Theorem C8_accuracy_reads_final_step_only
    {L P R : Type} (sparse_categorical_accuracy : list L -> list P -> R)
    (y_true y_true' : list (list L)) (y_pred y_pred' : list (list P)) :
  Forall2 (fun row row' => index row (-1) = index row' (-1)) y_true y_true' ->
  Forall2 (fun row row' => index row (-1) = index row' (-1)) y_pred y_pred' ->
  classification_accuracy sparse_categorical_accuracy y_true y_pred
  = classification_accuracy sparse_categorical_accuracy y_true' y_pred'.
Proof.
  intros Ht Hp. unfold classification_accuracy.
  rewrite (column_agree _ _ _ Ht), (column_agree _ _ _ Hp). reflexivity.
Qed.

(** Two batches of two examples that differ before the final step, and in
    the number of steps. *)
Lemma C8_witness :
  classification_accuracy hits
    [[[0]; [1]]; [[2]; [2]]]%nat
    [[[9; 1; 0]; [0; 5; 1]]; [[0; 0; 1]; [1; 2; 3]]]%Z
  = classification_accuracy hits
    [[[1]]; [[5]; [5]; [2]]]%nat
    [[[0; 5; 1]]; [[7; 7; 7]; [3; 2; 1]; [1; 2; 3]]]%Z.
Proof.
  apply (C8_accuracy_reads_final_step_only hits);
    repeat constructor.
Defined.

(** The value is the framework's accuracy of the final slices. *)
Lemma classification_accuracy_final
    {L P R : Type} (acc : list L -> list P -> R)
    (y_true : list (list L)) (y_pred : list (list P)) t p :
  column y_true (-1) = Some t -> column y_pred (-1) = Some p ->
  classification_accuracy acc y_true y_pred = Some (acc t p).
Proof. intros Ht Hp. unfold classification_accuracy. rewrite Ht, Hp. reflexivity. Qed.

Example classification_accuracy_run :
  classification_accuracy hits
    [[[0]; [1]]; [[2]; [2]]]%nat
    [[[9; 1; 0]; [0; 5; 1]]; [[0; 0; 1]; [3; 2; 1]]]%Z
  = Some [true; false].
Proof. reflexivity. Qed.

Example classification_accuracy_empty_time_axis :
  classification_accuracy hits [[]; [[2%nat]]] [[]; [[0; 0; 1]%Z]] = None.
Proof. reflexivity. Qed.

Lemma at2_map_replicate {A B} (f : A -> B) (x : list A) (n i s : nat) a :
  x !! i = Some a -> (s < n)%nat ->
  at2 (map (fun a => replicate n (f a)) x) i s = Some (f a).
Proof.
  intros Hi Hs. unfold at2.
  rewrite list_lookup_fmap, Hi. simpl.
  apply lookup_replicate_2. exact Hs.
Qed.

Lemma steps_map_replicate {A B} (f : A -> B) (x : list A) (n i : nat) ts :
  map (fun a => replicate n (f a)) x !! i = Some ts -> length ts = n.
Proof.
  rewrite list_lookup_fmap. destruct (x !! i); simpl; [|discriminate].
  intros Heq. injection Heq as <-. apply length_replicate.
Qed.

Lemma prepare_checked_Some {pixel label : Type}
    (d : dataset pixel label) (p : prepared pixel label) :
  prepare_checked d = Some p <->
  train_images d <> [] /\ test_images d <> [] /\ p = prepare d.
Proof.
  unfold prepare_checked, flatten_checked, prepare.
  destruct (train_images d) as [|a x] eqn:Etrain.
  - split; [discriminate | intros [H _]; contradiction].
  - destruct (test_images d) as [|b y] eqn:Etest.
    + split; [discriminate | intros (_ & H & _); contradiction].
    + split.
      * intros [= <-]. repeat split; discriminate.
      * intros (_ & _ & ->). reflexivity.
Qed.

(** C9.  When the preparation goes through (neither stack of images is
    empty, or the flatten step raises), every training example has exactly
    one timestep: the prepared training images and labels are the flattened
    images and the labels, each under a time axis of length one.  Every
    test example has [n_steps] = 30 timesteps that all hold the same data:
    at any two steps [s], [t] below 30 the image of example [i] is its
    flattened original image and its label is its original label. *)
Theorem C9_time_axis_preparation
    {pixel label : Type} (d : dataset pixel label) (p : prepared pixel label) :
  prepare_checked d = Some p ->
  p_train_images p = map (fun img => [concat img]) (train_images d) /\
  p_train_labels p = map (fun lab => [[lab]]) (train_labels d) /\
  Forall (fun ts => length ts = 1%nat) (p_train_images p) /\
  Forall (fun ls => length ls = 1%nat) (p_train_labels p) /\
  length (p_train_images p) = length (train_images d) /\
  length (p_train_labels p) = length (train_labels d) /\
  Forall (fun ts => length ts = 30%nat) (p_test_images p) /\
  Forall (fun ls => length ls = 30%nat) (p_test_labels p) /\
  length (p_test_images p) = length (test_images d) /\
  length (p_test_labels p) = length (test_labels d) /\
  forall (i s t : nat) (img : list (list pixel)) (lab : label),
    test_images d !! i = Some img -> test_labels d !! i = Some lab ->
    (s < 30)%nat -> (t < 30)%nat ->
    at2 (p_test_images p) i s = Some (concat img) /\
    at2 (p_test_images p) i t = Some (concat img) /\
    at2 (p_test_labels p) i s = Some [lab] /\
    at2 (p_test_labels p) i t = Some [lab].
Proof.
  intros Hp. apply prepare_checked_Some in Hp as (_ & _ & ->).
  unfold prepare, n_steps.
  rewrite tile_time, tile_time_labels.
  cbn [p_train_images p_train_labels p_test_images p_test_labels].
  unfold add_time_axis, add_time_and_unit_axis, flatten.
  rewrite !map_map, !length_map.
  split; [reflexivity|]. split; [reflexivity|].
  split; [apply Forall_map, Forall_forall; intros; reflexivity|].
  split; [apply Forall_map, Forall_forall; intros; reflexivity|].
  split; [reflexivity|]. split; [reflexivity|].
  split; [apply Forall_map, Forall_forall; intros; apply length_replicate|].
  split; [apply Forall_map, Forall_forall; intros; apply length_replicate|].
  split; [reflexivity|]. split; [reflexivity|].
  intros i s t img lab Himg Hlab Hs Ht.
  repeat split.
  - apply (at2_map_replicate (@concat pixel)); assumption.
  - apply (at2_map_replicate (@concat pixel)); assumption.
  - apply (at2_map_replicate (fun a => [a])); assumption.
  - apply (at2_map_replicate (fun a => [a])); assumption.
Qed.

Lemma C9_witness :
  p_train_images (prepare tiny) = [[[1; 2; 3; 4]]; [[5; 6; 7; 8]]]%nat /\
  at2 (p_test_images (prepare tiny)) 1 29 = Some [5; 4; 3; 2]%nat.
Proof.
  destruct (C9_time_axis_preparation tiny (prepare tiny))
    as (Htrain & _ & _ & _ & _ & _ & _ & _ & _ & _ & Htest);
    [reflexivity|].
  split; [exact Htrain|].
  apply (Htest 1 0 29 [[5; 4]; [3; 2]] 1)%nat; [reflexivity | reflexivity | lia | lia].
Defined.

Example prepare_tiny_train :
  p_train_images (prepare tiny) = [[[1; 2; 3; 4]]; [[5; 6; 7; 8]]]%nat /\
  p_train_labels (prepare tiny) = [[[7]]; [[3]]]%nat.
Proof. split; reflexivity. Qed.

End DataProperties.

(* ===================================================================== *)
(** ** Runs of the notebook *)
(* ===================================================================== *)

Module Runs.
Import Run Notebook Reading Theory Script.

Lemma no_handlers (do_training : bool) :
  existsb has_try (script (notebook_with do_training)) = false.
Proof. destruct do_training; reflexivity. Qed.

Lemma history_split f h ev :
  found f h = Some ev -> h = since f h ++ ev :: before f h.
Proof.
  induction h as [|x h IH]; simpl; [discriminate|].
  destruct (calls f (ev_call x)).
  - intros [= ->]. reflexivity.
  - intros H. simpl. f_equal. apply IH. exact H.
Qed.

Lemma rev_split {A} (later : list A) (x : A) (earlier : list A) :
  rev (later ++ x :: earlier) = rev earlier ++ x :: rev later.
Proof. rewrite rev_app_distr. simpl. rewrite <- app_assoc. reflexivity. Qed.

Lemma filter_prefix {A} (p : A -> bool) (l1 l2 : list A) :
  l1 `prefix_of` l2 -> List.filter p l1 `prefix_of` List.filter p l2.
Proof.
  intros [k ->]. exists (List.filter p k). apply List.filter_app.
Qed.

Lemma omap_prefix {A B} (f : A -> option B) (l1 l2 : list A) :
  l1 `prefix_of` l2 -> omap f l1 `prefix_of` omap f l2.
Proof. intros [k ->]. exists (omap f k). apply omap_app. Qed.

Lemma prefix_of_two {A} (a b : A) (l : list A) :
  l `prefix_of` [a; b] -> l = [] \/ l = [a] \/ l = [a; b].
Proof.
  intros [k Hk]. destruct l as [|x [|y [|z l]]]; simpl in Hk.
  - left; reflexivity.
  - injection Hk as <- _. right; left; reflexivity.
  - injection Hk as <- <- _. right; right; reflexivity.
  - discriminate.
Qed.

Lemma prefix_of_one {A} (a : A) (l : list A) :
  l `prefix_of` [a] -> l = [] \/ l = [a].
Proof.
  intros [k Hk]. destruct l as [|x [|y l]]; simpl in Hk.
  - left; reflexivity.
  - injection Hk as <- _. right; reflexivity.
  - discriminate.
Qed.

Section AnyWorld.

Variable w : World.
Variable do_training : bool.

Lemma attempted_prefix (f : list string) :
  attempted f (run w (notebook_with do_training)) `prefix_of` attempted f (run quiet (notebook_with do_training)).
Proof.
  apply filter_prefix, run_prefix, no_handlers.
Qed.


Lemma file_ops_prefix :
  file_ops (run w (notebook_with do_training))
    `prefix_of` file_ops (run quiet (notebook_with do_training)).
Proof. apply omap_prefix, run_prefix, no_handlers. Qed.

(** The call [ev] of the quiet run is attempted in [w] when the
    operations before it succeed in [w]; the operations of the run are
    then those before it, itself, and what follows. *)
Lemma reaches (f : list string) (ev : event) :
  found f (trace (snd (run quiet (notebook_with do_training)))) = Some ev ->
  calm w (before f (trace (snd (run quiet (notebook_with do_training))))) ->
  exists later,
    calls_of (run w (notebook_with do_training))
    = rev (before f (trace (snd (run quiet (notebook_with do_training))))) ++ ev :: later.
Proof.
  intros Hf Hc.
  destruct (run_reaches w (notebook_with do_training) (no_handlers do_training) ev _ _
              (history_split _ _ _ Hf) Hc) as [later Hl].
  exists (rev later). unfold calls_of. rewrite Hl. apply rev_split.
Qed.

End AnyWorld.

(** *** The quiet runs *)

Lemma quiet_completes (do_training : bool) :
  fst (run quiet (notebook_with do_training)) = Ok tt.
Proof. destruct do_training; vm_compute; reflexivity. Qed.


Lemma quiet_file_ops :
  file_ops (run quiet notebook) = [download; load] /\
  file_ops (run quiet (notebook_with true)) = [Save "./mnist_params"].
Proof. split; vm_compute; reflexivity. Qed.

Lemma quiet_phases (do_training : bool) :
  phases (run quiet (notebook_with do_training))
  = [Fetch; Plot; Topology; Construct; Evaluate; TrainOrLoad; Evaluate; Plot].
Proof. destruct do_training; vm_compute; reflexivity. Qed.

End Runs.

(* ===================================================================== *)
(** ** Properties of the notebook as a script *)
(* ===================================================================== *)

Import Run Notebook Reading Theory Script Runs.

Lemma omap_cons_some {A B} (f : A -> option B) (x : A) (y : B) (l : list A) :
  f x = Some y -> omap f (x :: l) = y :: omap f l.
Proof. intros H. simpl. rewrite H. reflexivity. Qed.

Lemma every_preceded_sound (p q : event -> bool) (l1 l2 : list event) ev :
  forall seen,
    every_preceded p q seen (l1 ++ ev :: l2) = true -> q ev = true ->
    seen = true \/ existsb p l1 = true.
Proof.
  induction l1 as [|x l1 IH]; intros seen H Hq; simpl in H.
  - rewrite Hq in H. simpl in H. apply andb_true_iff in H as [H _].
    left. exact H.
  - apply andb_true_iff in H as [_ H].
    destruct (IH _ H Hq) as [Hs | He]; simpl.
    + apply orb_true_iff in Hs as [Hs | Hp]; [left; exact Hs|].
      right. rewrite Hp. reflexivity.
    + right. rewrite He. apply orb_true_r.
Qed.

Lemma none_after_sound (p q : event -> bool) (l1 l2 : list event) ev :
  forall seen,
    none_after p q seen (l1 ++ ev :: l2) = true -> q ev = true ->
    seen = false /\ existsb p l1 = false.
Proof.
  induction l1 as [|x l1 IH]; intros seen H Hq; simpl in H.
  - rewrite Hq, andb_true_r in H. apply andb_true_iff in H as [H _].
    split; [|reflexivity]. destruct seen; [discriminate | reflexivity].
  - apply andb_true_iff in H as [_ H].
    destruct (IH _ H Hq) as [Hs He]. apply orb_false_iff in Hs as [Hs Hp].
    split; [exact Hs|]. simpl. rewrite Hp, He. reflexivity.
Qed.

(** A place in a run is a place in the quiet run. *)
Lemma place_in_quiet_run (w : World) (do_training : bool)
    (earlier later : list event) (ev : event) :
  calls_of (run w (notebook_with do_training)) = earlier ++ ev :: later ->
  exists rest,
    calls_of (run quiet (notebook_with do_training)) = earlier ++ ev :: rest.
Proof.
  intros H.
  destruct (run_prefix w _ (no_handlers do_training)) as [k Hk].
  exists (later ++ k). rewrite Hk, H, <- app_assoc. reflexivity.
Qed.

(** *** Errors *)

(** C7.  The notebook has no try/except, for either value of
    [do_training], and whenever an operation it attempts (a call, an
    import, an access to an attribute or a subscript, ...) raises an
    exception, that exception is the outcome of the run and the failing
    operation is the last one attempted: nothing catches it, nothing is
    retried, nothing runs afterwards. *)
Theorem C7_failures_propagate_uncaught
    (w : World) (do_training : bool) (e : exn) (ev : event)
    (h later : list event) :
  trace (snd (run w (notebook_with do_training))) = later ++ ev :: h ->
  w h ev = Some e ->
  tries (control_flow (script (notebook_with do_training))) = 0%nat /\
  fst (run w (notebook_with do_training)) = Raised e /\
  later = [].
Proof.
  intros Ht Hw. split; [destruct do_training; reflexivity|].
  destruct (run_raise_is_final w _ (no_handlers do_training) e ev h later Ht Hw)
    as [Hl Hr].
  split; assumption.
Qed.

(** The dataset loader raises: the run ends there with that exception. *)
Lemma C7_witness :
  fst (run dataset_unavailable notebook) = Raised "URLError".
Proof.
  refine (proj1 (proj2
    (C7_failures_propagate_uncaught dataset_unavailable false "URLError"
       (Event (ECall (path ["tf"; "keras"; "datasets"; "mnist"; "load_data"])
                 [] []) [] [])
       (tl (trace (snd (run dataset_unavailable notebook)))) [] _ _)));
    vm_compute; reflexivity.
Defined.

(** Every run of the notebook ends: normally, or with an exception. *)
Lemma run_ends (w : World) (do_training : bool) :
  fst (run w (notebook_with do_training)) = Ok tt \/
  exists e, fst (run w (notebook_with do_training)) = Raised e.
Proof.
  destruct (run_follows w _ (no_handlers do_training))
    as [Heq _ | e ev h more Hr _ _ _ _].
  - left. rewrite Heq. apply quiet_completes.
  - right. exists e. exact Hr.
Qed.

(** A failed download is not followed by the load; a failed import stops
    the run before anything is fetched. *)
Example failed_download :
  fst (run download_fails notebook) = Raised "HTTPError" /\
  file_ops (run download_fails notebook) = [download].
Proof. split; vm_compute; reflexivity. Qed.

Example failed_import :
  fst (run import_fails notebook) = Raised "ModuleNotFoundError" /\
  fetches (run import_fails notebook) = [].
Proof. split; vm_compute; reflexivity. Qed.

(** With a handler the interpreter does catch: the property above is one of
    scripts without try/except, not of the interpreter. *)
Example handler_catches :
  let w : World :=
    fun _ ev => if calls ["input"] (ev_call ev) then Some "EOFError" else None in
  let r := exec_block w
             [STry [SExpr (ECall (name "input") [] [])]
                   [SExpr (ECall (name "print") [] [])]] initial in
  fst r = Ok tt /\
  map ev_call (rev (trace (snd r)))
  = [ECall (name "input") [] []; ECall (name "print") [] []].
Proof. split; reflexivity. Qed.

(** *** The branch on [do_training] *)

Lemma never_trains (w : World) :
  attempted ["sim"; "fit"] (run w notebook) = [] /\
  attempted ["sim"; "save_params"] (run w notebook) = [].
Proof.
  split; apply prefix_nil_inv.
  - pose proof (attempted_prefix w false ["sim"; "fit"]) as H.
    replace (attempted ["sim"; "fit"] (run quiet (notebook_with false)))
      with (@nil event) in H by (vm_compute; reflexivity).
    exact H.
  - pose proof (attempted_prefix w false ["sim"; "save_params"]) as H.
    replace (attempted ["sim"; "save_params"] (run quiet (notebook_with false)))
      with (@nil event) in H by (vm_compute; reflexivity).
    exact H.
Qed.

Lemma file_ops_as_written (w : World) :
  file_ops (run w notebook) `prefix_of` [download; load].
Proof.
  pose proof (file_ops_prefix w false) as H.
  fold notebook in H. rewrite (proj1 quiet_file_ops) in H. exact H.
Qed.

(** C10 as stated fails: when the dataset loader raises, the run ends
    before the weights cell, so it neither downloads the weight file nor
    calls [sim.load_params]; none of the save and load calls runs, not
    exactly one. *)
Lemma C10_counterexample :
  fst (run dataset_unavailable notebook) = Raised "URLError" /\
  attempted ["urlretrieve"] (run dataset_unavailable notebook) = [] /\
  attempted ["sim"; "load_params"] (run dataset_unavailable notebook) = [] /\
  attempted ["sim"; "save_params"] (run dataset_unavailable notebook) = [].
Proof. repeat split; vm_compute; reflexivity. Qed.

(** C10, amended.  With [do_training = False] no run, in any world, calls
    [sim.fit] or [sim.save_params]; the file operations of a run are the
    first ones of: download the pretrained weights, then
    [sim.load_params] (so never a save together with a load).  A run that
    ends without an exception has downloaded and loaded, once each.  In
    every run the load comes only after the download, and the calls that
    follow the weights cell (the report of the accuracy after training,
    [sim.predict], [sim.close]) come only after the load.  A run that an
    exception stops earlier does neither. *)
Theorem C10_training_branch_never_runs (w : World) :
  attempted ["sim"; "fit"] (run w notebook) = [] /\
  attempted ["sim"; "save_params"] (run w notebook) = [] /\
  file_ops (run w notebook) `prefix_of` [download; load] /\
  (not_raised (fst (run w notebook)) ->
   file_ops (run w notebook) = [download; load]) /\
  (forall earlier ev later,
      calls_of (run w notebook) = earlier ++ ev :: later ->
      (loads_weights ev = true -> existsb downloads earlier = true) /\
      (after_weights_cell ev = true -> existsb loads_weights earlier = true)).
Proof.
  destruct (never_trains w) as [Hfit Hsave].
  split; [exact Hfit|]. split; [exact Hsave|].
  split; [apply file_ops_as_written|].
  split.
  - intros Hnr.
    pose proof (run_not_raised w _ (no_handlers false) Hnr) as Heq.
    fold notebook in Heq. rewrite Heq.
    exact (proj1 quiet_file_ops).
  - intros earlier ev later H.
    destruct (place_in_quiet_run w false _ _ _ H) as [rest Hq].
    split; intros Hev.
    + assert (Hc : every_preceded downloads loads_weights false
                     (calls_of (run quiet (notebook_with false))) = true)
        by (vm_compute; reflexivity).
      rewrite Hq in Hc.
      destruct (every_preceded_sound _ _ _ _ _ _ Hc Hev) as [? | He];
        [discriminate | exact He].
    + assert (Hc : every_preceded loads_weights after_weights_cell false
                     (calls_of (run quiet (notebook_with false))) = true)
        by (vm_compute; reflexivity).
      rewrite Hq in Hc.
      destruct (every_preceded_sound _ _ _ _ _ _ Hc Hev) as [? | He];
        [discriminate | exact He].
Qed.

(** The quiet run ends without an exception: it has downloaded and
    loaded. *)
Lemma C10_witness :
  file_ops (run quiet notebook) = [download; load].
Proof.
  refine (proj1 (proj2 (proj2 (proj2
    (C10_training_branch_never_runs quiet)))) _).
  vm_compute. exact I.
Defined.

(** A run that fails only in the last figure has got past [sim.predict],
    hence has loaded the weights. *)
Example late_failure_has_loaded :
  fst (run plotting_fails_late notebook) = Raised "RuntimeError" /\
  file_ops (run plotting_fails_late notebook) = [download; load].
Proof. split; vm_compute; reflexivity. Qed.

(** *** The order of the steps *)

(** C2 as stated fails: the notebook has control flow of its own (one if
    statement, two for loops, a list comprehension), and its steps are not
    fetch, declare, construct, train-or-load, evaluate, plot one after the
    other: it plots right after the fetch and evaluates once before the
    weights are loaded. *)
Lemma C2_counterexample :
  ifs (control_flow (script notebook)) = 1%nat /\
  fors (control_flow (script notebook)) = 2%nat /\
  phases (run quiet notebook)
  <> [Fetch; Topology; Construct; TrainOrLoad; Evaluate; Plot].
Proof.
  split; [reflexivity|]. split; [reflexivity|].
  pose proof (quiet_phases false) as H. fold notebook in H.
  rewrite H. discriminate.
Qed.

(** C2, amended.  The cells run top to bottom.  A run that ends without
    an exception goes, for either value of [do_training], through: fetch,
    plot of sample digits, declare the network, construct the simulator,
    evaluate, train or load, evaluate, plot; so fetch, declare, construct,
    train-or-load, evaluate, plot occur in that order.  The control flow of
    the notebook's own is one if statement on [do_training], two for loops
    over [range(3)] and [range(5)], one list comprehension and one function
    definition; there is no try statement. *)
Theorem C2_order_of_steps (w : World) (do_training : bool) :
  not_raised (fst (run w (notebook_with do_training))) ->
  fst (run w (notebook_with do_training)) = Ok tt /\
  phases (run w (notebook_with do_training)) = steps_of_the_tutorial /\
  in_order [Fetch; Topology; Construct; TrainOrLoad; Evaluate; Plot]
    (phases (run w (notebook_with do_training))) = true /\
  control_flow (script (notebook_with do_training)) = Census 1 2 1 0 1 /\
  collect conditions (script (notebook_with do_training)) = [name "do_training"] /\
  collect iterables (script (notebook_with do_training))
  = [ECall (name "range") [EInt 3] []; ECall (name "range") [EInt 5] []] /\
  assignments "do_training" (script (notebook_with do_training))
  = [EBool do_training].
Proof.
  intros Hnr.
  rewrite (run_not_raised w _ (no_handlers do_training) Hnr).
  rewrite quiet_completes, quiet_phases.
  split; [reflexivity|]. split; [reflexivity|]. split; [reflexivity|].
  destruct do_training; repeat split; reflexivity.
Qed.

Lemma C2_witness :
  phases (run quiet notebook) = steps_of_the_tutorial.
Proof.
  refine (proj1 (proj2 (C2_order_of_steps quiet false _))).
  vm_compute. exact I.
Defined.

(** *** The parameter file *)

(** C3 as stated fails: in the notebook as written the load call runs and
    no save call does; what it reads is the file the download has just
    written.  Here the parameters of [./mnist_params] are kept in
    [mnist_params.npz] and an earlier save has left that file behind. *)
Lemma C3_counterexample :
  file_ops (run quiet notebook)
  = [Download weights_url "mnist_params.npz"; Load "./mnist_params"] /\
  loaded npz_file {[ "mnist_params.npz" := Saved ]}
    (file_ops (run quiet notebook))
  = [Some (Downloaded weights_url)].
Proof. split; vm_compute; reflexivity. Qed.

Lemma loaded_after_download (param_file : string -> string)
    (files : gmap string origin) :
  param_file "./mnist_params" = "mnist_params.npz" ->
  loaded param_file files [download; load] = [Some (Downloaded weights_url)].
Proof.
  intros Hfile. unfold loaded, replay, download, load. simpl.
  rewrite Hfile, lookup_insert_eq. reflexivity.
Qed.

Lemma never_save_and_load (w : World) (do_training : bool) :
  existsb is_save (file_ops (run w (notebook_with do_training)))
  && existsb is_load (file_ops (run w (notebook_with do_training))) = false.
Proof.
  pose proof (file_ops_prefix w do_training) as H.
  destruct do_training.
  - rewrite (proj2 quiet_file_ops) in H.
    destruct (prefix_of_one _ _ H) as [-> | ->]; reflexivity.
  - pose proof (proj1 quiet_file_ops) as Hq. unfold notebook in Hq.
    rewrite Hq in H.
    destruct (prefix_of_two _ _ _ H) as [-> | [-> | ->]]; reflexivity.
Qed.

(** C3, amended.  The save call and the load call are passed the same path,
    [./mnist_params]; they stand in opposite branches of [do_training], so
    no run performs both.  In the notebook as written the file operations of
    a run are the first ones of: download into [mnist_params.npz], load
    [./mnist_params]; when the parameters of [./mnist_params] are kept in
    [mnist_params.npz], every load call finds the file the download wrote,
    whatever was there before. *)
Theorem C3_parameter_file
    (param_file : string -> string) (files : gmap string origin)
    (w : World) (do_training : bool) (found : option origin) :
  param_file "./mnist_params" = "mnist_params.npz" ->
  In found (loaded param_file files (file_ops (run w notebook))) ->
  found = Some (Downloaded weights_url) /\
  map call_args
    (calls_to ["sim"; "save_params"] (script (notebook_with do_training)))
  = [[EStr "./mnist_params"]] /\
  map call_args
    (calls_to ["sim"; "load_params"] (script (notebook_with do_training)))
  = [[EStr "./mnist_params"]] /\
  existsb is_save (file_ops (run w (notebook_with do_training)))
  && existsb is_load (file_ops (run w (notebook_with do_training))) = false /\
  file_ops (run w notebook) `prefix_of` [download; load].
Proof.
  intros Hfile Hin.
  split.
  - destruct (prefix_of_two _ _ _ (file_ops_as_written w)) as [E | [E | E]];
      rewrite E in Hin.
    + destruct Hin.
    + destruct Hin.
    + rewrite (loaded_after_download _ _ Hfile) in Hin.
      destruct Hin as [<- | []]. reflexivity.
  - split; [destruct do_training; reflexivity|].
    split; [destruct do_training; reflexivity|].
    split; [apply never_save_and_load | apply file_ops_as_written].
Qed.

Lemma C3_witness :
  map call_args (calls_to ["sim"; "save_params"] (script notebook))
  = [[EStr "./mnist_params"]] /\
  map call_args (calls_to ["sim"; "load_params"] (script notebook))
  = [[EStr "./mnist_params"]].
Proof.
  pose proof (C3_parameter_file npz_file {[ "mnist_params.npz" := Saved ]}
                quiet false (Some (Downloaded weights_url))) as H.
  destruct H as (_ & Hsave & Hload & _).
  - reflexivity.
  - vm_compute. left. reflexivity.
  - split; [exact Hsave | exact Hload].
Defined.

(** *** What the notebook takes from outside *)



(** *** The network and the simulator *)

(** C5.  The notebook declares one network, [net], inside
    [with nengo.Network(seed=0) as net]: a sequence of
    [nengo_dl.Layer(...)(...)] calls, each applied to the output of the one
    before, starting from the input node; they are three convolutions, each
    followed by the neuron nonlinearity ([nengo.LIF]), then a dense readout
    of 10 units.  The one simulator is constructed by
    [nengo_dl.Simulator(net, minibatch_size=minibatch_size)], from that
    network and the batch size, whose value at the call is 200. *)
Theorem C5_network_and_simulator (w : World) :
  networks (script notebook) = [("net", the_layers)] /\
  chained "inp" the_layers = true /\
  conv_stack_with_readout (map kind the_layers) = true /\
  assignments "inp" (script notebook)
  = [ECall (path ["nengo"; "Node"])
       [ECall (path ["np"; "zeros"]) [EBinOp Mult (EInt 28) (EInt 28)] []] []] /\
  assignments "neuron_type" (script notebook)
  = [ECall (path ["nengo"; "LIF"]) [] [("amplitude", EFloat "0.01")]] /\
  assignments "net" (script notebook) = [] /\
  calls_to ["nengo_dl"; "Simulator"] (script notebook) = [simulator_call] /\
  assignments "sim" (script notebook) = [simulator_call] /\
  assignments "minibatch_size" (script notebook) = [EInt 200] /\
  attempted ["nengo_dl"; "Simulator"] (run quiet notebook)
  = [Event simulator_call [VOpaque] [("minibatch_size", VInt 200)]] /\
  attempted ["nengo_dl"; "Simulator"] (run w notebook)
    `prefix_of` [Event simulator_call [VOpaque] [("minibatch_size", VInt 200)]].
Proof.
  assert (Hq : attempted ["nengo_dl"; "Simulator"] (run quiet notebook)
               = [Event simulator_call [VOpaque] [("minibatch_size", VInt 200)]])
    by (vm_compute; reflexivity).
  do 9 (split; [reflexivity|]).
  split; [exact Hq|].
  pose proof (attempted_prefix w false ["nengo_dl"; "Simulator"]) as H.
  fold notebook in H. rewrite Hq in H. exact H.
Qed.

Lemma shapes_fit :
  convolutions (script notebook)
  = [(32, 3, 1, (28, 28, 1)); (64, 3, 2, (26, 26, 32));
     (128, 3, 2, (12, 12, 64))]%Z /\
  conv_out (28, 28, 1)%Z 32 3 1 = (26, 26, 32)%Z /\
  conv_out (26, 26, 32)%Z 64 3 2 = (12, 12, 64)%Z /\
  conv_out (12, 12, 64)%Z 128 3 2 = (5, 5, 128)%Z.
Proof. repeat split; reflexivity. Qed.

(** *** Training and evaluation calls *)

(** C6.  The calls the notebook makes on the simulator are, in the order of
    the text, compile, evaluate, compile, fit, save_params, load_params,
    compile, evaluate, predict, close.  The one fit call and the two
    evaluate calls pass the inputs and a dictionary from an output probe to
    the targets, plus options: [sim.fit(train_images, {out_p:
    train_labels}, epochs=10)] and [sim.evaluate(test_images, {out_p_filt:
    test_labels}, verbose=0)].  When training runs, fit runs under the
    configuration compiled just before it: optimizer [RMSprop(0.001)], loss
    sparse categorical cross-entropy on [out_p], the probe without a
    filter.  Every evaluation, before and after, runs under the loss
    [classification_accuracy] on [out_p_filt], the probe with the filter. *)
Theorem C6_training_and_evaluation_calls :
  omap sim_method (all_calls (script notebook))
  = ["compile"; "evaluate"; "compile"; "fit"; "save_params"; "load_params";
     "compile"; "evaluate"; "predict"; "close"] /\
  calls_to ["sim"; "fit"] (script notebook) = [fit_call] /\
  calls_to ["sim"; "evaluate"] (script notebook)
  = [evaluate_call; evaluate_call] /\
  feeds fit_call = Some ("train_images", "out_p", "train_labels") /\
  feeds evaluate_call = Some ("test_images", "out_p_filt", "test_labels") /\
  sim_log (run quiet (notebook_with true))
  = [(evaluate_call, accuracy_config); (fit_call, training_config);
     (evaluate_call, accuracy_config)] /\
  sim_log (run quiet notebook)
  = [(evaluate_call, accuracy_config); (evaluate_call, accuracy_config)] /\
  assignments "out_p" (script notebook)
  = [ECall (path ["nengo"; "Probe"]) [name "out"] [("label", EStr "out_p")]] /\
  assignments "out_p_filt" (script notebook)
  = [ECall (path ["nengo"; "Probe"]) [name "out"]
       [("synapse", EFloat "0.1"); ("label", EStr "out_p_filt")]].
Proof.
  do 5 (split; [reflexivity|]).
  split; [vm_compute; reflexivity|].
  split; [vm_compute; reflexivity|].
  split; reflexivity.
Qed.

(** *** The settings of the evaluation *)

(** The part of the accuracy statement that is about the script: the test
    data is tiled over [n_steps] = 30 steps and the simulator is given
    [minibatch_size] = 200.  The accuracy the evaluation then prints is
    computed by the external frameworks from the downloaded weights; the
    notebook stores no output. *)
Lemma evaluation_settings :
  env (snd (run quiet notebook)) !! "n_steps" = Some (VInt 30) /\
  env (snd (run quiet notebook)) !! "minibatch_size" = Some (VInt 200) /\
  map ev_args (attempted ["np"; "tile"] (run quiet notebook))
  = [[VOpaque; VTuple [VInt 1; VInt 30; VInt 1]];
     [VOpaque; VTuple [VInt 1; VInt 30; VInt 1]]] /\
  map ev_kwargs (attempted ["nengo_dl"; "Simulator"] (run quiet notebook))
  = [[("minibatch_size", VInt 200)]].
Proof. repeat split; vm_compute; reflexivity. Qed.

(* ===================================================================== *)
(** ** Further properties of the array code *)
(* ===================================================================== *)

Section MoreDataProperties.
Import Data DataFacts.

Lemma length_concat_rows {A} (cols : nat) (img : list (list A)) :
  Forall (fun row => length row = cols) img ->
  length (concat img) = (length img * cols)%nat.
Proof.
  induction 1 as [|row img Hrow _ IH]; simpl; [reflexivity|].
  rewrite length_app, Hrow, IH. reflexivity.
Qed.

Lemma rows_of_concat {A} (cols : nat) (img : list (list A)) :
  Forall (fun row => length row = cols) img ->
  rows_of (length img) cols (concat img) = img.
Proof.
  induction 1 as [|row img Hrow _ IH]; simpl; [reflexivity|].
  replace (take cols (row ++ concat img)) with row
    by (rewrite <- Hrow; symmetry; apply take_app_length).
  replace (drop cols (row ++ concat img)) with (concat img)
    by (rewrite <- Hrow; symmetry; apply drop_app_length).
  rewrite IH. reflexivity.
Qed.

(** Flattening an image and reshaping it back gives the image; reshaping
    it to a shape with another number of entries is an error. *)
Theorem reshape_undoes_flatten {A} (rows cols : nat) (img : list (list A)) :
  has_shape rows cols img ->
  reshape (concat img) (rows, cols) = Some img /\
  forall rows' cols', (rows' * cols' <> rows * cols)%nat ->
                      reshape (concat img) (rows', cols') = None.
Proof.
  intros [Hlen Hrows]. unfold reshape.
  rewrite (length_concat_rows cols img Hrows), Hlen. split.
  - rewrite Nat.eqb_refl. rewrite <- Hlen.
    rewrite (rows_of_concat cols img Hrows). reflexivity.
  - intros rows' cols' Hne.
    destruct (Nat.eqb_spec (rows * cols) (rows' * cols')) as [E|_];
      [congruence | reflexivity].
Qed.

Lemma reshape_undoes_flatten_witness :
  reshape (concat [[1; 2; 3]; [4; 5; 6]]%nat) (2, 3)%nat
  = Some [[1; 2; 3]; [4; 5; 6]]%nat.
Proof.
  refine (proj1 (reshape_undoes_flatten 2 3 [[1; 2; 3]; [4; 5; 6]]%nat _)).
  split; [reflexivity | repeat constructor].
Defined.

(** Both kinds of figure show the original 28 x 28 image: the sample
    figures reshape the flattened training image, the result figures
    reshape step 0 of the prepared test image. *)
Theorem figures_show_original_images
    {pixel label : Type} (d : dataset pixel label) (i : nat)
    (img : list (list pixel)) :
  has_shape 28 28 img ->
  (train_images d !! i = Some img -> sample_shown d i = Some img) /\
  (test_images d !! i = Some img -> result_shown d i = Some img).
Proof.
  intros Hshape.
  destruct (reshape_undoes_flatten 28 28 img Hshape) as [Hback _].
  split; intros Hi.
  - unfold sample_shown, flatten.
    rewrite list_lookup_fmap, Hi. exact Hback.
  - unfold result_shown, prepare, n_steps.
    cbn [p_test_images]. rewrite tile_time.
    rewrite (at2_map_replicate (fun a => a) _ 30 i 0 (concat img)).
    + exact Hback.
    + unfold flatten. rewrite list_lookup_fmap, Hi. reflexivity.
    + lia.
Qed.

Definition striped : list (list nat) := replicate 28 (seq 0 28).

Lemma figures_show_original_images_witness :
  sample_shown (Dataset [striped] [7%nat] [striped] [7%nat]) 0 = Some striped /\
  result_shown (Dataset [striped] [7%nat] [striped] [7%nat]) 0 = Some striped.
Proof.
  destruct (figures_show_original_images
              (Dataset [striped] [7%nat] [striped] [7%nat]) 0 striped)
    as [Htrain Htest].
  - split; [reflexivity | vm_compute; repeat constructor].
  - split; [apply Htrain | apply Htest]; reflexivity.
Defined.

Lemma forall_steps_replicate {A B} (P : B -> Prop) (f : A -> B) (n : nat)
    (x : list A) :
  Forall (fun a => P (f a)) x ->
  Forall (Forall P) (map (fun a => replicate n (f a)) x).
Proof.
  intros H. apply Forall_map. eapply Forall_impl; [exact H|].
  intros a Ha. simpl. apply Forall_replicate. exact Ha.
Qed.

(** When the preparation goes through, the prepared arrays keep the number
    of examples, and when the images are 28 x 28 every timestep of every
    image has 784 entries, the size of the input node
    ([np.zeros(28 * 28)]); every timestep of a label has one entry. *)
Theorem prepared_shapes
    {pixel label : Type} (d : dataset pixel label) (p : prepared pixel label) :
  prepare_checked d = Some p ->
  Forall (has_shape 28 28) (train_images d) ->
  Forall (has_shape 28 28) (test_images d) ->
  length (p_train_images p) = length (train_images d) /\
  length (p_train_labels p) = length (train_labels d) /\
  length (p_test_images p) = length (test_images d) /\
  length (p_test_labels p) = length (test_labels d) /\
  Forall (Forall (fun v => length v = 784%nat)) (p_train_images p) /\
  Forall (Forall (fun v => length v = 784%nat)) (p_test_images p) /\
  Forall (Forall (fun v => length v = 1%nat)) (p_train_labels p) /\
  Forall (Forall (fun v => length v = 1%nat)) (p_test_labels p) /\
  map ev_args (attempted ["np"; "zeros"] (run quiet notebook)) = [[VInt 784]].
Proof.
  intros Hp Htrain Htest.
  apply prepare_checked_Some in Hp as (_ & _ & ->).
  unfold prepare, n_steps.
  rewrite tile_time, tile_time_labels.
  cbn [p_train_images p_train_labels p_test_images p_test_labels].
  assert (Hflat : forall imgs : list (list (list pixel)),
             Forall (has_shape 28 28) imgs ->
             Forall (fun v => length v = 784%nat) (flatten imgs)).
  { intros imgs H. unfold flatten. apply Forall_map.
    eapply Forall_impl; [exact H|]. intros img [Hlen Hrows]. simpl.
    rewrite (length_concat_rows 28 img Hrows), Hlen. reflexivity. }
  unfold add_time_axis, add_time_and_unit_axis, flatten.
  rewrite !length_map.
  do 4 (split; [reflexivity|]).
  split.
  { apply Forall_map. eapply Forall_impl; [exact (Hflat _ Htrain)|].
    intros v Hv. simpl. constructor; [exact Hv | constructor]. }
  split.
  { apply (forall_steps_replicate _ (fun a => a)). exact (Hflat _ Htest). }
  split.
  { apply Forall_map, Forall_forall. intros l _. simpl.
    constructor; [reflexivity | constructor]. }
  split.
  { apply (forall_steps_replicate _ (fun a => [a])).
    apply Forall_forall. intros l _. reflexivity. }
  vm_compute. reflexivity.
Qed.

Lemma prepared_shapes_witness :
  length (p_test_images (prepare (Dataset [striped] [7%nat] [striped] [7%nat])))
  = 1%nat.
Proof.
  refine (proj1 (proj2 (proj2
    (prepared_shapes (Dataset [striped] [7%nat] [striped] [7%nat])
       (prepare (Dataset [striped] [7%nat] [striped] [7%nat])) _ _ _))));
    [reflexivity | |]; repeat constructor; vm_compute; repeat constructor.
Defined.

Lemma column_last_None {A} (y : list (list A)) :
  column y (-1) = None <-> Exists (fun row => row = []) y.
Proof.
  induction y as [|row y IH]; simpl.
  - split; [discriminate | intros H; inversion H].
  - rewrite index_last. destruct (last row) as [a|] eqn:Hl.
    + destruct (column y (-1)) as [c|].
      * split; [discriminate|]. intros H.
        apply Exists_cons in H as [-> | H]; [discriminate|].
        apply IH in H. discriminate.
      * split; [|reflexivity]. intros _. right. apply IH. reflexivity.
    + split; [|reflexivity]. intros _. left. apply last_None. exact Hl.
Qed.

(** On batches that are not empty, [classification_accuracy] fails exactly
    when some example of [y_true] or of [y_pred] has no timestep, where
    [y[:, -1]] is out of bounds. *)
Theorem accuracy_fails_on_empty_time_axis
    {L P R : Type} (acc : list L -> list P -> R)
    (y_true : list (list L)) (y_pred : list (list P)) :
  y_true <> [] -> y_pred <> [] ->
  classification_accuracy acc y_true y_pred = None <->
  Exists (fun row => row = []) y_true \/ Exists (fun row => row = []) y_pred.
Proof.
  intros _ _.
  rewrite <- !column_last_None. unfold classification_accuracy.
  destruct (column y_true (-1)), (column y_pred (-1)); split;
    try discriminate; try (intros _; auto; fail);
    intros [H | H]; discriminate.
Qed.

Lemma accuracy_fails_on_empty_time_axis_witness :
  classification_accuracy (fun (t : list nat) (q : list nat) => (t, q))
    [[1%nat]; []] [[2%nat]; [3%nat]] = None.
Proof.
  refine (proj2 (accuracy_fails_on_empty_time_axis
                   (fun (t : list nat) (q : list nat) => (t, q))
                   [[1%nat]; []] [[2%nat]; [3%nat]] _ _) _);
    [discriminate | discriminate |].
  left. right. left. reflexivity.
Defined.

Lemma index_replicate {A} (n : nat) (a : A) (s : Z) :
  index (replicate n a) s
  = if ((- Z.of_nat n <=? s) && (s <? Z.of_nat n))%Z then Some a else None.
Proof.
  unfold index. rewrite length_replicate.
  destruct (Z.leb_spec 0 s) as [Hs|Hs].
  - replace (- Z.of_nat n <=? s)%Z with true
      by (symmetry; apply Z.leb_le; lia).
    simpl. destruct (Z.ltb_spec s (Z.of_nat n)).
    + apply lookup_replicate_2. lia.
    + apply lookup_replicate_None. lia.
  - replace (s <? Z.of_nat n)%Z with true
      by (symmetry; apply Z.ltb_lt; lia).
    rewrite andb_true_r.
    replace (- Z.of_nat n <=? s)%Z with (0 <=? Z.of_nat n + s)%Z.
    + destruct (Z.leb_spec 0 (Z.of_nat n + s)); [|reflexivity].
      apply lookup_replicate_2. lia.
    + destruct (Z.leb_spec 0 (Z.of_nat n + s)),
               (Z.leb_spec (- Z.of_nat n) s); try reflexivity; lia.
Qed.

Lemma column_replicate {A B} (f : A -> B) (n : nat) (x : list A) (s : Z) :
  column (map (fun a => replicate n (f a)) x) s
  = if ((- Z.of_nat n <=? s) && (s <? Z.of_nat n))%Z then Some (map f x)
    else match x with [] => Some [] | _ => None end.
Proof.
  induction x as [|a x IH]; simpl.
  - destruct (_ && _); reflexivity.
  - rewrite index_replicate, IH.
    destruct (_ && _); reflexivity.
Qed.

(** A slice [y[:, s]] of the prepared test data is the original data for
    every step index from -30 to 29; any other index is an error. *)
Theorem test_slices_and_bounds
    {pixel label : Type} (d : dataset pixel label) (s : Z) :
  test_images d <> [] ->
  ((-30 <= s < 30)%Z ->
   column (p_test_images (prepare d)) s = Some (flatten (test_images d)) /\
   column (p_test_labels (prepare d)) s
   = Some (map (fun l => [l]) (test_labels d))) /\
  (~ (-30 <= s < 30)%Z -> column (p_test_images (prepare d)) s = None).
Proof.
  intros Hne. unfold prepare, n_steps.
  cbn [p_test_images p_test_labels].
  rewrite tile_time, tile_time_labels.
  rewrite (column_replicate (fun a => a)), (column_replicate (fun a => [a])).
  rewrite map_id. split.
  - intros Hs.
    replace ((- Z.of_nat 30 <=? s) && (s <? Z.of_nat 30))%Z with true.
    + split; reflexivity.
    + symmetry. apply andb_true_iff. split;
        [apply Z.leb_le | apply Z.ltb_lt]; lia.
  - intros Hs.
    replace ((- Z.of_nat 30 <=? s) && (s <? Z.of_nat 30))%Z with false.
    + destruct (flatten (test_images d)) eqn:E; [|reflexivity].
      unfold flatten in E. apply map_eq_nil in E. contradiction.
    + symmetry. apply andb_false_iff.
      destruct (Z.leb_spec (- Z.of_nat 30) s); [|left; reflexivity].
      right. apply Z.ltb_ge. lia.
Qed.

Lemma test_slices_and_bounds_witness :
  column (p_test_images (prepare tiny)) (-30)
  = Some [[9; 8; 7; 6]; [5; 4; 3; 2]]%nat.
Proof.
  refine (proj1 (proj1 (test_slices_and_bounds tiny (-30) _) _));
    [discriminate | lia].
Defined.

(** On the prepared labels [classification_accuracy] compares the final
    step of the predictions with the original labels, for the test labels
    (30 steps) as for the training labels (one step). *)
Theorem accuracy_against_original_labels
    {pixel label P R : Type} (acc : list (list label) -> list P -> R)
    (d : dataset pixel label) (y_pred : list (list P)) :
  classification_accuracy acc (p_test_labels (prepare d)) y_pred
  = option_map (acc (map (fun l => [l]) (test_labels d))) (column y_pred (-1))
  /\
  classification_accuracy acc (p_train_labels (prepare d)) y_pred
  = option_map (acc (map (fun l => [l]) (train_labels d))) (column y_pred (-1)).
Proof.
  unfold classification_accuracy, prepare, n_steps.
  cbn [p_test_labels p_train_labels].
  rewrite tile_time_labels.
  rewrite (column_replicate (fun a => [a]) 30).
  change (add_time_and_unit_axis (train_labels d))
    with (map (fun a => replicate 1 [a]) (train_labels d)).
  rewrite (column_replicate (fun a => [a]) 1).
  split; simpl; destruct (column y_pred (-1)); reflexivity.
Qed.

End MoreDataProperties.

(* ===================================================================== *)
(** ** Further properties of the runs *)
(* ===================================================================== *)

(** In every run, for either value of [do_training]: nothing at all is
    attempted after [sim.close()], and a call on [sim] comes only after the
    simulator has been constructed. *)
Theorem simulator_used_while_open
    (w : World) (do_training : bool)
    (earlier later : list event) (ev : event) :
  calls_of (run w (notebook_with do_training)) = earlier ++ ev :: later ->
  existsb closes_simulator earlier = false /\
  (on_simulator ev = true -> existsb constructs_simulator earlier = true).
Proof.
  intros H. destruct (place_in_quiet_run _ _ _ _ _ H) as [rest Hq].
  split.
  - assert (Hc : none_after closes_simulator (fun _ => true) false
                   (calls_of (run quiet (notebook_with do_training))) = true)
      by (destruct do_training; vm_compute; reflexivity).
    rewrite Hq in Hc.
    apply (none_after_sound _ _ _ _ _ _ Hc). reflexivity.
  - intros Hon.
    assert (Hc : every_preceded constructs_simulator on_simulator false
                   (calls_of (run quiet (notebook_with do_training))) = true)
      by (destruct do_training; vm_compute; reflexivity).
    rewrite Hq in Hc.
    destruct (every_preceded_sound _ _ _ _ _ _ Hc Hon) as [? | He];
      [discriminate | exact He].
Qed.

Lemma simulator_used_while_open_witness :
  existsb constructs_simulator (take 154 (calls_of (run quiet notebook))) = true.
Proof.
  refine (proj2 (simulator_used_while_open quiet false
                   (take 154 (calls_of (run quiet notebook)))
                   (drop 155 (calls_of (run quiet notebook)))
                   load_event _) _);
    vm_compute; reflexivity.
Defined.

(** In every run, for either value of [do_training], the weights are
    changed ([sim.fit] or [sim.load_params]) only after an evaluation has
    been made: the accuracy reported first is that of the untrained
    network. *)
Theorem first_accuracy_is_of_untrained_network
    (w : World) (do_training : bool)
    (earlier later : list event) (ev : event) :
  calls_of (run w (notebook_with do_training)) = earlier ++ ev :: later ->
  sets_weights ev = true ->
  existsb evaluates earlier = true /\ existsb sets_weights earlier = false.
Proof.
  intros H Hev. destruct (place_in_quiet_run _ _ _ _ _ H) as [rest Hq].
  split.
  - assert (Hc : every_preceded evaluates sets_weights false
                   (calls_of (run quiet (notebook_with do_training))) = true)
      by (destruct do_training; vm_compute; reflexivity).
    rewrite Hq in Hc.
    destruct (every_preceded_sound _ _ _ _ _ _ Hc Hev) as [? | He];
      [discriminate | exact He].
  - assert (Hc : none_after sets_weights sets_weights false
                   (calls_of (run quiet (notebook_with do_training))) = true)
      by (destruct do_training; vm_compute; reflexivity).
    rewrite Hq in Hc.
    apply (none_after_sound _ _ _ _ _ _ Hc Hev).
Qed.

Lemma first_accuracy_is_of_untrained_network_witness :
  existsb evaluates (take 154 (calls_of (run quiet notebook))) = true.
Proof.
  refine (proj1 (first_accuracy_is_of_untrained_network quiet false
                   (take 154 (calls_of (run quiet notebook)))
                   (drop 155 (calls_of (run quiet notebook)))
                   load_event _ _));
    vm_compute; reflexivity.
Defined.

Lemma sim_log_grows (l : list event) :
  forall st, exists k, snd (fold_left sim_step l st) = snd st ++ k.
Proof.
  induction l as [|ev l IH]; intros st; simpl.
  - exists []. symmetry. apply app_nil_r.
  - destruct (IH (sim_step st ev)) as [k Hk]. rewrite Hk.
    unfold sim_step.
    destruct (calls ["sim"; "compile"] (ev_call ev)); simpl.
    + exists k. reflexivity.
    + destruct (_ || _); simpl.
      * eexists. rewrite <- app_assoc. reflexivity.
      * exists k. reflexivity.
Qed.

Lemma sim_log_prefix (w : World) (do_training : bool) :
  sim_log (run w (notebook_with do_training))
    `prefix_of` sim_log (run quiet (notebook_with do_training)).
Proof.
  destruct (run_prefix w _ (no_handlers do_training)) as [k Hk].
  unfold sim_log. rewrite Hk, fold_left_app.
  destruct (sim_log_grows k
              (fold_left sim_step (calls_of (run w (notebook_with do_training)))
                 (Config None None, []))) as [k' Hk'].
  exists k'. exact Hk'.
Qed.

(** In every run, for either value of [do_training], [sim.fit] runs under
    the RMSprop optimizer and the cross-entropy loss on [out_p], and every
    [sim.evaluate] runs under the loss [classification_accuracy] on
    [out_p_filt] and no optimizer: the training configuration never
    reaches an evaluation. *)
Theorem configuration_in_force
    (w : World) (do_training : bool) (e : expr) (cfg : config) :
  In (e, cfg) (sim_log (run w (notebook_with do_training))) ->
  (calls ["sim"; "fit"] e = true -> cfg = training_config) /\
  (calls ["sim"; "evaluate"] e = true -> cfg = accuracy_config).
Proof.
  intros Hin.
  destruct (sim_log_prefix w do_training) as [k Hk].
  assert (Hq : In (e, cfg) (sim_log (run quiet (notebook_with do_training))))
    by (rewrite Hk; apply in_or_app; left; exact Hin).
  clear Hin Hk.
  destruct do_training.
  - replace (sim_log (run quiet (notebook_with true)))
      with [(evaluate_call, accuracy_config); (fit_call, training_config);
            (evaluate_call, accuracy_config)] in Hq
      by (vm_compute; reflexivity).
    destruct Hq as [E | [E | [E | []]]]; injection E as <- <-;
      split; intros Hc; solve [reflexivity | discriminate Hc].
  - replace (sim_log (run quiet (notebook_with false)))
      with [(evaluate_call, accuracy_config); (evaluate_call, accuracy_config)]
      in Hq by (vm_compute; reflexivity).
    destruct Hq as [E | [E | []]]; injection E as <- <-;
      split; intros Hc; solve [reflexivity | discriminate Hc].
Qed.

Lemma configuration_in_force_witness :
  snd (nth 1 (sim_log (run quiet (notebook_with true)))
         (ENone, Config None None))
  = training_config.
Proof.
  refine (proj1 (configuration_in_force quiet true fit_call
                   (snd (nth 1 (sim_log (run quiet (notebook_with true)))
                           (ENone, Config None None))) _) _).
  - vm_compute. right. left. reflexivity.
  - reflexivity.
Defined.

Lemma subplot_in_grid_inv (ev : event) :
  subplot_in_grid ev = true ->
  calls ["plt"; "subplot"] (ev_call ev) = true ->
  exists rows cols index,
    ev_args ev = [VInt rows; VInt cols; VInt index] /\
    (1 <= index <= rows * cols)%Z.
Proof.
  unfold subplot_in_grid. intros H Hc. rewrite Hc in H.
  destruct (ev_args ev) as [|[r| | | | | | |] [|[c| | | | | | |] [|[i| | | | | | |] [|]]]];
    try discriminate.
  apply andb_true_iff in H as [H1 H2].
  exists r, c, i. split; [reflexivity|].
  split; [apply Z.leb_le, H1 | apply Z.leb_le, H2].
Qed.

(** In every run, every [plt.subplot(rows, cols, index)] call asks for a
    cell of the grid: the three arguments are integers and
    1 <= index <= rows * cols (the first loop passes [i + 1] for [i] in
    [range(3)]). *)
Theorem subplots_in_grid (w : World) (do_training : bool) (ev : event) :
  In ev (calls_of (run w (notebook_with do_training))) ->
  calls ["plt"; "subplot"] (ev_call ev) = true ->
  exists rows cols index,
    ev_args ev = [VInt rows; VInt cols; VInt index] /\
    (1 <= index <= rows * cols)%Z.
Proof.
  intros Hin. apply subplot_in_grid_inv.
  destruct (run_prefix w _ (no_handlers do_training)) as [k Hk].
  assert (Hall : forallb subplot_in_grid
                   (calls_of (run quiet (notebook_with do_training))) = true)
    by (destruct do_training; vm_compute; reflexivity).
  rewrite forallb_forall in Hall. apply Hall.
  rewrite Hk. apply in_or_app. left. exact Hin.
Qed.

Lemma subplots_in_grid_witness :
  exists rows cols index,
    [VInt 1; VInt 3; VInt 3] = [VInt rows; VInt cols; VInt index] /\
    (1 <= index <= rows * cols)%Z.
Proof.
  refine (subplots_in_grid quiet false
            (Event (ECall (path ["plt"; "subplot"])
                      [EInt 1; EInt 3; EBinOp Add (name "i") (EInt 1)] [])
                   [VInt 1; VInt 3; VInt 3] []) _ _).
  - vm_compute. do 53 right. left. reflexivity.
  - reflexivity.
Defined.

(** With [do_training = True] the roles are exchanged: no run downloads
    the weights or calls [sim.load_params]; the file operations of a run
    are at most the save to [./mnist_params] and [sim.fit] is called at
    most once, with [epochs=10]; a run that ends without an exception has
    called [sim.fit] once and saved once; and in every run the save comes
    only after [sim.fit]. *)
Theorem training_branch_when_enabled (w : World) :
  attempted ["urlretrieve"] (run w (notebook_with true)) = [] /\
  attempted ["sim"; "load_params"] (run w (notebook_with true)) = [] /\
  file_ops (run w (notebook_with true)) `prefix_of` [Save "./mnist_params"] /\
  attempted ["sim"; "fit"] (run w (notebook_with true)) `prefix_of` [fit_event] /\
  (not_raised (fst (run w (notebook_with true))) ->
   file_ops (run w (notebook_with true)) = [Save "./mnist_params"] /\
   attempted ["sim"; "fit"] (run w (notebook_with true)) = [fit_event]) /\
  (forall earlier ev later,
      calls_of (run w (notebook_with true)) = earlier ++ ev :: later ->
      saves_weights ev = true -> existsb fits earlier = true).
Proof.
  assert (Hfit : attempted ["sim"; "fit"] (run quiet (notebook_with true))
                 = [fit_event]) by (vm_compute; reflexivity).
  split.
  { apply prefix_nil_inv.
    pose proof (attempted_prefix w true ["urlretrieve"]) as H.
    replace (attempted ["urlretrieve"] (run quiet (notebook_with true)))
      with (@nil event) in H by (vm_compute; reflexivity).
    exact H. }
  split.
  { apply prefix_nil_inv.
    pose proof (attempted_prefix w true ["sim"; "load_params"]) as H.
    replace (attempted ["sim"; "load_params"] (run quiet (notebook_with true)))
      with (@nil event) in H by (vm_compute; reflexivity).
    exact H. }
  split.
  { pose proof (file_ops_prefix w true) as Hp.
    rewrite (proj2 quiet_file_ops) in Hp. exact Hp. }
  split.
  { pose proof (attempted_prefix w true ["sim"; "fit"]) as Hp.
    rewrite Hfit in Hp. exact Hp. }
  split.
  { intros Hnr.
    rewrite (run_not_raised w _ (no_handlers true) Hnr).
    split; [exact (proj2 quiet_file_ops) | exact Hfit]. }
  intros earlier ev later H Hev.
  destruct (place_in_quiet_run w true _ _ _ H) as [rest Hq].
  assert (Hc : every_preceded fits saves_weights false
                 (calls_of (run quiet (notebook_with true))) = true)
    by (vm_compute; reflexivity).
  rewrite Hq in Hc.
  destruct (every_preceded_sound _ _ _ _ _ _ Hc Hev) as [? | He];
    [discriminate | exact He].
Qed.

Lemma training_branch_when_enabled_witness :
  file_ops (run quiet (notebook_with true)) = [Save "./mnist_params"].
Proof.
  refine (proj1 (proj1 (proj2 (proj2 (proj2 (proj2
    (training_branch_when_enabled quiet))))) _)).
  vm_compute. exact I.
Defined.
